(** * Hytale launcher: update engine, self-update handoff, channel state,
      download reporter, offline guard and OAuth loopback.

    A shallow embedding of the Go sources, one Module per Go package, and
    the properties of the specification that were checked against them. *)

From Stdlib Require Import ZArith List String Ascii Bool Lia.
From Stdlib Require Import Floats.
From stdpp Require Import gmap strings list fin_maps.

Set Default Proof Using "Type".
Set Warnings "-inexact-float".

(** ** Errors

    Go's [error] values are compared by their message in this development;
    [nil] is [None]. *)

Definition error := string.

Inductive result (A : Type) : Type :=
| Ok (a : A)
| Err (e : error).
Arguments Ok {A} a.
Arguments Err {A} e.

(** ** crypto/sha256, crypto/hmac and encoding/hex

    The Go standard library primitives used by [crypto.HMAC]; words are
    32-bit integers carried in [Z] with the wrap-around written out, bytes
    are 8-bit integers carried in [Z]. *)

Module Sha256.
Local Open Scope Z_scope.

Definition w32 (x : Z) : Z := x mod 2 ^ 32.
Definition add32 (a b : Z) : Z := w32 (a + b).
Definition not32 (x : Z) : Z := Z.lxor x (2 ^ 32 - 1).
Definition rotr (n x : Z) : Z := Z.lor (Z.shiftr x n) (w32 (Z.shiftl x (32 - n))).

Definition Ch (x y z : Z) : Z := Z.lxor (Z.land x y) (Z.land (not32 x) z).
Definition Maj (x y z : Z) : Z :=
  Z.lxor (Z.lxor (Z.land x y) (Z.land x z)) (Z.land y z).
Definition bsig0 (x : Z) : Z := Z.lxor (Z.lxor (rotr 2 x) (rotr 13 x)) (rotr 22 x).
Definition bsig1 (x : Z) : Z := Z.lxor (Z.lxor (rotr 6 x) (rotr 11 x)) (rotr 25 x).
Definition ssig0 (x : Z) : Z := Z.lxor (Z.lxor (rotr 7 x) (rotr 18 x)) (Z.shiftr x 3).
Definition ssig1 (x : Z) : Z := Z.lxor (Z.lxor (rotr 17 x) (rotr 19 x)) (Z.shiftr x 10).

(** The constants of FIPS 180-4 are defined from the first primes: the
    round constants are the first 32 bits of the fractional parts of the
    cube roots of the first 64 primes, the initial hash value those of
    the square roots of the first 8. *)
Definition primes : list Z :=
  [ 2; 3; 5; 7; 11; 13; 17; 19; 23; 29; 31; 37; 41; 43; 47; 53;
    59; 61; 67; 71; 73; 79; 83; 89; 97; 101; 103; 107; 109; 113; 127; 131;
    137; 139; 149; 151; 157; 163; 167; 173; 179; 181; 191; 193; 197; 199; 211; 223;
    227; 229; 233; 239; 241; 251; 257; 263; 269; 271; 277; 281; 283; 293; 307; 311 ].

(** The integer cube root, one bit at a time from the top. *)
Fixpoint icbrt_bits (bits : nat) (n r : Z) : Z :=
  match bits with
  | O => r
  | S b =>
      let c := r + 2 ^ Z.of_nat b in
      if c * c * c <=? n then icbrt_bits b n c else icbrt_bits b n r
  end.

Definition icbrt (n : Z) : Z := icbrt_bits 40 n 0.

Definition K : list Z :=
  Eval vm_compute in map (fun p => w32 (icbrt (p * 2 ^ 96))) primes.

Definition H0 : list Z :=
  Eval vm_compute in map (fun p => w32 (Z.sqrt (p * 2 ^ 64))) (firstn 8 primes).

(** One compression round on the working variables [a..h]. *)
Definition round (k w : Z) (s : list Z) : list Z :=
  match s with
  | [a; b; c; d; e; f; g; h] =>
      let t1 := add32 (add32 (add32 h (bsig1 e)) (add32 (Ch e f g) k)) w in
      let t2 := add32 (bsig0 a) (Maj a b c) in
      [add32 t1 t2; a; b; c; add32 d t1; e; f; g]
  | _ => s
  end.

(** The 64 rounds, with the message schedule kept as a sliding window of
    the sixteen words W[t..t+15]. *)
Fixpoint rounds (ks : list Z) (win : list Z) (s : list Z) : list Z :=
  match ks with
  | [] => s
  | k :: ks' =>
      match win with
      | [] => s
      | w0 :: rest =>
          let wn := add32 (add32 (ssig1 (nth 14 win 0)) (nth 9 win 0))
                          (add32 (ssig0 (nth 1 win 0)) w0) in
          rounds ks' (rest ++ [wn]) (round k w0 s)
      end
  end.

(** Big-endian 32-bit words of a block of bytes. *)
Fixpoint words_of_bytes (bs : list Z) : list Z :=
  match bs with
  | b0 :: b1 :: b2 :: b3 :: bs' =>
      (Z.shiftl b0 24 + Z.shiftl b1 16 + Z.shiftl b2 8 + b3) :: words_of_bytes bs'
  | _ => []
  end.

Definition bytes_of_word (w : Z) : list Z :=
  [ Z.shiftr w 24 mod 256; Z.shiftr w 16 mod 256; Z.shiftr w 8 mod 256; w mod 256 ].

Definition compress (h : list Z) (block : list Z) : list Z :=
  map (fun p => add32 (fst p) (snd p))
      (combine h (rounds K (words_of_bytes block) h)).

Fixpoint blocks (fuel : nat) (h : list Z) (bs : list Z) : list Z :=
  match fuel with
  | O => h
  | S fuel' =>
      match bs with
      | [] => h
      | _ => blocks fuel' (compress h (firstn 64 bs)) (skipn 64 bs)
      end
  end.

(** Padding of FIPS 180-4: a 1 bit, zeros up to 56 mod 64, then the bit
    length as a 64-bit big-endian integer. *)
Definition pad (msg : list Z) : list Z :=
  let len := Z.of_nat (length msg) in
  let zeros := Z.to_nat ((55 - len) mod 64) in
  let bits := len * 8 in
  msg ++ [0x80] ++ repeat 0 zeros
      ++ bytes_of_word (Z.shiftr bits 32 mod 2 ^ 32) ++ bytes_of_word (bits mod 2 ^ 32).

Definition Sum256 (msg : list Z) : list Z :=
  let p := pad msg in
  flat_map bytes_of_word (blocks (S (length p)) H0 p).

End Sha256.

Module Hmac.
Local Open Scope Z_scope.

Definition blockSize : nat := 64.

(** [hmac.New(sha256.New, key)] followed by [Write] and [Sum(nil)]. *)
Definition prepare_key (key : list Z) : list Z :=
  let k := if (blockSize <? length key)%nat then Sha256.Sum256 key else key in
  k ++ repeat 0 (blockSize - length k)%nat.

Definition Sum (key data : list Z) : list Z :=
  let k := prepare_key key in
  let ipad := map (Z.lxor 0x36) k in
  let opad := map (Z.lxor 0x5c) k in
  Sha256.Sum256 (opad ++ Sha256.Sum256 (ipad ++ data)).

End Hmac.

Module Hex.
Local Open Scope Z_scope.

Definition digit (n : Z) : ascii :=
  if n <? 10 then ascii_of_N (Z.to_N (48 + n)) else ascii_of_N (Z.to_N (87 + n)).

Fixpoint EncodeToString (bs : list Z) : string :=
  match bs with
  | [] => EmptyString
  | b :: bs' => String (digit (b / 16)) (String (digit (b mod 16)) (EncodeToString bs'))
  end.

(** A lower-case hexadecimal digit. *)
Definition is_digit (c : ascii) : bool :=
  let n := N_of_ascii c in
  ((48 <=? n) && (n <=? 57) || (97 <=? n) && (n <=? 102))%N.

Fixpoint all_digits (s : string) : bool :=
  match s with
  | EmptyString => true
  | String c s' => is_digit c && all_digits s'
  end.

End Hex.

(** Go's [[]byte(s)] conversion. *)
Fixpoint bytes_of_string (s : string) : list Z :=
  match s with
  | EmptyString => []
  | String c s' => Z.of_N (N_of_ascii c) :: bytes_of_string s'
  end.

(** ** internal/crypto *)

Module Crypto.

(** selfUpdateKeyID is the UUID used to identify the self-update key in
    the keyring. *)
Definition selfUpdateKeyID : string := "3BA63AC3-1B08-425B-AC1A-3B19841B660D".

(** [HMAC] computes an HMAC-SHA256 of the data using the provided key and
    returns it as a hexadecimal string. *)
Definition HMAC (data key : list Z) : string :=
  Hex.EncodeToString (Hmac.Sum key data).

End Crypto.

(** ** strconv, strings, path/filepath *)

Module Strconv.
Local Open Scope Z_scope.

Fixpoint digits (fuel : nat) (n : Z) (acc : string) : string :=
  match fuel with
  | O => acc
  | S fuel' =>
      let acc' := String (ascii_of_N (Z.to_N (48 + n mod 10))) acc in
      if n <? 10 then acc' else digits fuel' (n / 10) acc'
  end.

(** [strconv.FormatInt(i, 10)]. *)
Definition FormatInt (i : Z) : string :=
  if i <? 0
  then String "-" (digits (S (Z.to_nat (Z.log2 (- i)))) (- i) EmptyString)
  else digits (S (Z.to_nat (Z.log2 i))) i EmptyString.

(** [strconv.Atoi] on the decimal strings [FormatInt] produces; 0 on
    anything else. *)
Fixpoint atoi_digits (s : string) (acc : Z) : option Z :=
  match s with
  | EmptyString => Some acc
  | String c s' =>
      let d := Z.of_N (N_of_ascii c) - 48 in
      if (0 <=? d) && (d <=? 9) then atoi_digits s' (acc * 10 + d) else None
  end.

Definition Atoi (s : string) : Z :=
  match s with
  | EmptyString => 0
  | String "-" s' => match atoi_digits s' 0 with Some n => - n | None => 0 end
  | _ => match atoi_digits s 0 with Some n => n | None => 0 end
  end.

End Strconv.

Module Strings.

(** [strings.HasPrefix(s, prefix)]. *)
Definition HasPrefix (s pre : string) : bool := String.prefix pre s.

(** [strings.HasSuffix(s, suffix)]. *)
Fixpoint HasSuffix (s suf : string) : bool :=
  if String.eqb s suf then true
  else
    match s with
    | EmptyString => false
    | String _ s' => HasSuffix s' suf
    end.

(** The string without its first [n] characters. *)
Fixpoint drop (n : nat) (s : string) : string :=
  match n, s with
  | S n', String _ s' => drop n' s'
  | _, _ => s
  end.

(** [strings.TrimPrefix(s, prefix)]. *)
Definition TrimPrefix (s pre : string) : string :=
  if HasPrefix s pre then drop (String.length pre) s else s.

(** [strings.ToLower] on the letters of ASCII. *)
Definition lower (c : ascii) : ascii :=
  let n := N_of_ascii c in
  if ((65 <=? n) && (n <=? 90))%N then ascii_of_N (n + 32) else c.

Fixpoint ToLower (s : string) : string :=
  match s with
  | EmptyString => EmptyString
  | String c s' => String (lower c) (ToLower s')
  end.

(** [strings.Join(elems, sep)]. *)
Definition Join (elems : list string) (sep : string) : string := String.concat sep elems.

End Strings.

Module Filepath.

(** [filepath.Join] of two elements. The directories joined in this
    development are clean and not empty, where [Join] is the
    concatenation with one separator. *)
Definition Join (dir name : string) : string := (dir ++ "/" ++ name)%string.

(** The elements of a path: the runs of characters between separators,
    the empty ones included. *)
Fixpoint elements (path cur : string) : list string :=
  match path with
  | EmptyString => [cur]
  | String c rest =>
      if Ascii.eqb c "/" then cur :: elements rest EmptyString
      else elements rest (cur ++ String c EmptyString)
  end.

(** One element in [filepath.Clean]; [out] holds the elements kept so
    far, the last one first. An empty element and "." are dropped; ".."
    removes the last element when there is one to remove, is kept in
    front of a path that is not rooted, and is dropped at the root. *)
Definition cleanStep (rooted : bool) (out : list string) (elem : string) : list string :=
  if String.eqb elem "" || String.eqb elem "." then out
  else if String.eqb elem ".." then
    match out with
    | top :: rest => if String.eqb top ".." then elem :: out else rest
    | [] => if rooted then [] else [elem]
    end
  else elem :: out.

(** [filepath.Clean] on a system whose separator is "/": the shortest
    path equivalent to [path] by purely lexical processing. *)
Definition Clean (path : string) : string :=
  match path with
  | EmptyString => "."
  | String c _ =>
      let rooted := Ascii.eqb c "/" in
      let out := rev (fold_left (cleanStep rooted) (elements path EmptyString) []) in
      if rooted then String "/" (String.concat "/" out)
      else
        match out with
        | [] => "."
        | _ => String.concat "/" out
        end
  end%string.

(** [filepath.Join] of any number of elements: the elements from the
    first one that is not empty on, joined by separators and cleaned;
    the empty string when every element is empty. *)
Fixpoint JoinPath (elems : list string) : string :=
  match elems with
  | [] => EmptyString
  | e :: rest =>
      if String.eqb e "" then JoinPath rest else Clean (String.concat "/" elems)
  end.

(** What is left of a path up to and including its last separator. *)
Fixpoint upToLastSeparator (path : string) : string :=
  match path with
  | EmptyString => EmptyString
  | String c rest =>
      let r := upToLastSeparator rest in
      if String.eqb r "" then (if Ascii.eqb c "/" then String c EmptyString else EmptyString)
      else String c r
  end.

(** [filepath.Dir]: all but the last element of the path, cleaned. *)
Definition Dir (path : string) : string := Clean (upToLastSeparator path).

End Filepath.

(** ** The file system

    Regular files by path with their bytes, and the directories that
    exist. Permissions are not modelled: an operation fails only when its
    path is missing. *)

Module Os.

Record Disk := mkDisk {
  files : gmap string (list Z);
  dirs : gset string
}.

Definition ErrNotExist : error := "file does not exist"%string.

(** [os.Remove] of a file. *)
Definition Remove (path : string) (d : Disk) : option error * Disk :=
  match files d !! path with
  | None => (Some ErrNotExist, d)
  | Some _ => (None, {| files := delete path (files d); dirs := dirs d |})
  end.

(** [os.Rename] of a file: the bytes move to the new path. *)
Definition Rename (oldpath newpath : string) (d : Disk) : option error * Disk :=
  match files d !! oldpath with
  | None => (Some ErrNotExist, d)
  | Some bytes =>
      (None, {| files := <[newpath := bytes]> (delete oldpath (files d)); dirs := dirs d |})
  end.

(** [os.MkdirAll]. *)
Definition MkdirAll (path : string) (d : Disk) : Disk :=
  {| files := files d; dirs := {[path]} ∪ dirs d |}.

Definition below (dir p : string) : bool :=
  String.eqb p dir || String.prefix (dir ++ "/") p.

(** [os.RemoveAll]: the path and everything below it. *)
Definition RemoveAll (path : string) (d : Disk) : Disk :=
  {| files := filter (fun kv => below path (fst kv) = false) (files d);
     dirs := filter (fun p => below path p = false) (dirs d) |}.

(** [os.ReadFile]. *)
Definition ReadFile (path : string) (d : Disk) : result (list Z) :=
  match files d !! path with
  | None => Err ErrNotExist
  | Some bytes => Ok bytes
  end.

(** [os.WriteFile] and [os.Create] followed by the copy of the bytes:
    the file is created or truncated. *)
Definition WriteFile (path : string) (bytes : list Z) (d : Disk) : option error * Disk :=
  (None, {| files := <[path := bytes]> (files d); dirs := dirs d |}).

End Os.

(** ** internal/appstate: the channel state store *)

Module Appstate.

(** [Dep] represents a dependency with version, path and signature
    information. Go's [int] is carried in [Z]. *)
Record Dep := mkDep {
  Version : string;
  Build : Z;
  BuildID : Z;
  Hash : string;
  Path : string;
  SigDir : string;
  SigFile : string
}.

(** [State] is the persistent application state. A Go map is a [gmap]; a
    nil map reads like the empty map, and the two writes of this package
    that could meet a nil map ([SetDependency], [AddDependency]) call
    [ensureDeps] first, so nil and empty are identified. *)
Record State := mkState {
  Channel : string;
  IsNew : bool;
  Platform : option (string * string);
  Dependencies : gmap string (gmap string Dep);
  OfflineReady : bool;
  DataDir : string
}.

Definition set_Dependencies (deps : gmap string (gmap string Dep)) (s : State) : State :=
  {| Channel := Channel s; IsNew := IsNew s; Platform := Platform s;
     Dependencies := deps;
     OfflineReady := OfflineReady s; DataDir := DataDir s |}.

(** [getDeps] returns the dependency map for a package identifier, nil
    ([None]) when there is none. *)
Definition getDeps (identifier : string) (s : State) : option (gmap string Dep) :=
  Dependencies s !! identifier.

(** [SetDependency] sets or removes a dependency for an identifier: a nil
    [dep] removes the entry of the identifier, otherwise the dependency is
    added or updated under its [Version] in the identifier's map, which is
    created when missing. The map is mutated in place, so the entries it
    already holds stay. *)
Definition SetDependency (identifier cause : string) (dep : option Dep) (s : State) : State :=
  match dep with
  | None => set_Dependencies (delete identifier (Dependencies s)) s
  | Some d =>
      let deps :=
        match getDeps identifier s with
        | None => ∅
        | Some deps => deps
        end in
      set_Dependencies (<[identifier := <[Version d := d]> deps]> (Dependencies s)) s
  end.

(** [AddDependency] adds a dependency keyed by its [Version]. *)
Definition AddDependency (identifier : string) (dep : Dep) (s : State) : State :=
  let deps :=
    match getDeps identifier s with
    | None => ∅
    | Some deps => deps
    end in
  set_Dependencies (<[identifier := <[Version dep := dep]> deps]> (Dependencies s)) s.

Definition GetDeps (identifier : string) (s : State) : option (gmap string Dep) :=
  getDeps identifier s.

(** [GetDependency] returns the first dependency met when ranging over
    the identifier's map. Go leaves the iteration order of a map
    unspecified; the model takes the first entry of [map_to_list]. *)
Definition GetDependency (identifier : string) (s : State) : option Dep :=
  match getDeps identifier s with
  | None => None
  | Some deps =>
      match map_to_list deps with
      | [] => None
      | (_, d) :: _ => Some d
      end
  end.

(** [RemoveDependency] removes one version; when the identifier's map
    becomes empty the identifier entry is removed as well. *)
Definition RemoveDependency (identifier version : string) (s : State) : State :=
  match getDeps identifier s with
  | None => s
  | Some deps =>
      let deps' := delete version deps in
      if decide (size deps' = 0)
      then set_Dependencies (delete identifier (Dependencies s)) s
      else set_Dependencies (<[identifier := deps']> (Dependencies s)) s
  end.

(** [SigPath] returns the full signature file path by joining [SigDir]
    and [SigFile]; the empty string if [SigDir] is empty. *)
Definition SigPath (d : Dep) : string :=
  if String.eqb (SigDir d) "" then EmptyString
  else Filepath.JoinPath [SigDir d; SigFile d].

(** No package is recorded with an empty map of versions. *)
Definition no_empty_entry (s : State) : Prop :=
  forall identifier, getDeps identifier s <> Some ∅.

End Appstate.

(** ** internal/keyring *)

Module Keyring.

(** Modelled from the spec: the keyring package is not part of the
    sources. It is "a named-key store returning raw bytes" whose
    [GetOrGenKey] loads a key and generates it if missing. The bytes of
    the keys still to be generated are the [entropy] of the store;
    generation fails when the store has none. *)
Record Store := mkStore {
  keys : gmap string (list Z);
  entropy : list (list Z)
}.

Definition GetOrGenKey (name : string) (st : Store) : result (list Z) * Store :=
  match keys st !! name with
  | Some k => (Ok k, st)
  | None =>
      match entropy st with
      | [] => (Err "keyring: cannot generate key"%string, st)
      | k :: rest => (Ok k, {| keys := <[name := k]> (keys st); entropy := rest |})
      end
  end.

End Keyring.

(** ** internal/selfupdate: the helper side of the handoff *)

Module Selfupdate.

(** The package-level variables of the helper process. *)
Record Vars := mkVars {
  SourceBin : string;
  TargetBin : string;
  OldChannel : string;
  OldVersion : string;
  ParentPID : Z;
  UpdateSignature : string
}.

Definition updateKeyName : string := "selfupdate".

Definition isSet (s : string) : bool := negb (String.eqb s "").

(** [validate] checks the HMAC signature of the target binary path and
    that both paths start with "/tmp". *)
Definition validate (v : Vars) (key : list Z) : option error :=
  let targetPath := bytes_of_string (TargetBin v) in
  let computed := Crypto.HMAC targetPath key in
  if negb (String.eqb computed (UpdateSignature v))
  then Some "invalid update signature"%string
  else if Strings.HasPrefix (SourceBin v) "/tmp" && Strings.HasPrefix (TargetBin v) "/tmp"
  then None
  else Some "invalid update executables"%string.

(** [fetchUpdateKey]: the key pre-fetched by [init] when there is one,
    else the keyring entry [updateKeyName]. *)
Definition fetchUpdateKey (updateKey : option (list Z)) (kr : Keyring.Store)
  : result (list Z) * Keyring.Store :=
  match updateKey with
  | Some k => (Ok k, kr)
  | None => Keyring.GetOrGenKey updateKeyName kr
  end.

(** [init] pre-fetches the update key from the keyring. *)
Definition init (kr : Keyring.Store) : option (list Z) * Keyring.Store :=
  match Keyring.GetOrGenKey updateKeyName kr with
  | (Ok k, kr') => (Some k, kr')
  | (Err _, kr') => (None, kr')
  end.

(** How far [Do] gets before it touches the file system. *)
Inductive Gate :=
| NotAnUpdate
| KeyUnavailable (e : error)
| Rejected (e : error)
| Accepted.

(** The prologue of [Do]: the mode test, the key and [validate]. After
    [Accepted] the helper waits for the parent, swaps the binary and
    launches it. *)
Definition Do_gate (v : Vars) (kr : Keyring.Store) : Gate :=
  if negb (isSet (SourceBin v)) || negb (isSet (TargetBin v)) then NotAnUpdate
  else
    let '(updateKey, kr1) := init kr in
    match fetchUpdateKey updateKey kr1 with
    | (Err e, _) => KeyUnavailable e
    | (Ok key, _) =>
        match validate v key with
        | Some e => Rejected e
        | None => Accepted
        end
    end.

(** Modelled from the spec: the flag parsing of the helper is not part of
    the sources. The self-update command line is
    [-start-pid N -source-exe P -dest-exe Q -launcher-patchline C
     -launcher-version V -sig HEX]; each flag is followed by its value. *)
Fixpoint flag (name : string) (argv : list string) : string :=
  match argv with
  | f :: val :: rest => if String.eqb f name then val else flag name rest
  | _ => EmptyString
  end.

Definition parseFlags (argv : list string) : Vars :=
  {| SourceBin := flag "-source-exe" argv;
     TargetBin := flag "-dest-exe" argv;
     OldChannel := flag "-launcher-patchline" argv;
     OldVersion := flag "-launcher-version" argv;
     ParentPID := Strconv.Atoi (flag "-start-pid" argv);
     UpdateSignature := flag "-sig" argv |}.



End Selfupdate.

(** ** internal/build *)

Module Build.
Section Build.
(** The variables set at build time, the runtime constants and the
    process environment. *)
Variable Release : string.
Variables GOOS GOARCH : string.
Variable environ : gmap string string.

Definition isDevMode : bool := String.eqb Release "dev".
Definition IsDev : bool := isDevMode.

Definition OS : string :=
  if isDevMode then
    match environ !! "HYTALE_LAUNCHER_OS"%string with
    | Some v => v
    | None => GOOS
    end
  else GOOS.

Definition Arch : string :=
  if isDevMode then
    match environ !! "HYTALE_LAUNCHER_ARCH"%string with
    | Some v => v
    | None => GOARCH
    end
  else GOARCH.
End Build.
End Build.

(** ** internal/endpoints *)

Module Endpoints.
Section Endpoints.
Variable Domain : string.

Definition LauncherVersion (platform component : string) : string :=
  ("https://launcher." ++ Domain ++ "/version/" ++ platform ++ "/" ++ component ++ ".json")%string.

Definition LauncherData : string :=
  ("https://account-data." ++ Domain ++ "/launcher-data")%string.
End Endpoints.
End Endpoints.

(** ** internal/net: the network mode *)

Module Net.

Inductive Mode := ModeOnline | ModeOffline.

Definition ErrOffline : error := "offline mode"%string.

(** Modelled from the spec: the net package is not part of the sources.
    "An OfflineError is a sentinel: any fetch in the Manifest Cache or
    Account subsystem must check mode first and fail fast with it when
    offline." [OfflineError] is the sentinel in mode Offline and nil in
    mode Online. *)
Definition OfflineError (current : Mode) : option error :=
  match current with
  | ModeOffline => Some ErrOffline
  | ModeOnline => None
  end.

End Net.

(** ** internal/ioutil: HTTP GET *)

Module Ioutil.

(** An HTTP request as the servers see it: the client it was made with
    (nil, or the bearer of an authenticated client), the URL and the
    query parameters. *)
Record Request := mkRequest {
  client : option string;
  url : string;
  params : list (string * string)
}.

(** The network-facing state of the process: the current network mode
    and the requests issued so far, oldest first. *)
Record Wire := mkWire {
  mode : Net.Mode;
  sent : list Request
}.

(** Modelled from the spec: [ioutil.Get] is not part of the sources. It
    is a GET of the URL decoded as a value of the type asked for; the
    answer of the server, decoding included, is [server]. *)
Definition Get {T : Type} (server : Request -> result T)
    (c : option string) (u : string) (ps : list (string * string)) (w : Wire)
  : result T * Wire :=
  let req := mkRequest c u ps in
  (server req, {| mode := mode w; sent := sent w ++ [req] |}).

(** [VerifySHA256] computes the SHA256 hash of a file and compares it
    to the expected hash. *)
Definition VerifySHA256 (path expectedHash : string) (d : Os.Disk) : option error :=
  match Os.files d !! path with
  | None => Some ("error opening file for hashing: " ++ Os.ErrNotExist)%string
  | Some bytes =>
      let actualHash := Hex.EncodeToString (Sha256.Sum256 bytes) in
      if negb (String.eqb actualHash expectedHash)
      then Some ("checksum mismatch: expected " ++ expectedHash ++ ", got " ++ actualHash)%string
      else None
  end.

(** *** Archives

    The readers of [archive/zip] and [archive/tar] are outside this
    development: an archive is what its reader yields. *)

(** A file of a zip archive: its name, whether it is a directory, the
    error of opening it if any, the bytes copied out of it and the error
    that ended the copy if any. *)
Record ZipFile := mkZipFile {
  z_Name : string;
  z_IsDir : bool;
  z_OpenErr : option error;
  z_Data : list Z;
  z_CopyErr : option error
}.

Inductive Typeflag := TypeDir | TypeReg | TypeOther.

(** An entry of a tar stream: its header and the bytes and error of the
    copy of its content. *)
Record TarEntry := mkTarEntry {
  t_Name : string;
  t_Typeflag : Typeflag;
  t_Data : list Z;
  t_CopyErr : option error
}.

Section Archives.
(** [zip.OpenReader] on the bytes of the archive, and [gzip.NewReader]
    followed by the successive answers of [tar.Reader.Next] up to the end
    of the stream. *)
Variable openZip : list Z -> result (list ZipFile).
Variable openTarGz : list Z -> result (list (result TarEntry)).

(** The path traversal check of both extractors. *)
Definition insideDest (destDir destPath : string) : bool :=
  Strings.HasPrefix destPath (Filepath.Clean destDir ++ "/").

(** The loop of [extractZip] over the files of the archive. *)
Fixpoint extractZipFiles (destDir : string) (fs : list ZipFile) (d : Os.Disk)
  : option error * Os.Disk :=
  match fs with
  | [] => (None, d)
  | f :: rest =>
      let destPath := Filepath.JoinPath [destDir; z_Name f] in
      if negb (insideDest destDir destPath)
      then (Some ("invalid file path: " ++ z_Name f)%string, d)
      else if z_IsDir f then extractZipFiles destDir rest (Os.MkdirAll destPath d)
      else
        let d := Os.MkdirAll (Filepath.Dir destPath) d in
        match z_OpenErr f with
        | Some err => (Some err, d)
        | None =>
            let d := snd (Os.WriteFile destPath (z_Data f) d) in
            match z_CopyErr f with
            | Some err => (Some err, d)
            | None => extractZipFiles destDir rest d
            end
        end
  end.

(** [extractZip] extracts a zip archive to the destination directory. *)
Definition extractZip (archivePath destDir : string) (d : Os.Disk) : option error * Os.Disk :=
  match Os.ReadFile archivePath d with
  | Err err => (Some ("failed to open zip: " ++ err)%string, d)
  | Ok bytes =>
      match openZip bytes with
      | Err err => (Some ("failed to open zip: " ++ err)%string, d)
      | Ok fs => extractZipFiles destDir fs d
      end
  end.

(** The loop of [extractTarGz] over the entries of the stream. *)
Fixpoint extractTarEntries (destDir : string) (entries : list (result TarEntry)) (d : Os.Disk)
  : option error * Os.Disk :=
  match entries with
  | [] => (None, d)
  | Err err :: _ => (Some ("failed to read tar header: " ++ err)%string, d)
  | Ok header :: rest =>
      let destPath := Filepath.JoinPath [destDir; t_Name header] in
      if negb (insideDest destDir destPath)
      then (Some ("invalid file path: " ++ t_Name header)%string, d)
      else
        match t_Typeflag header with
        | TypeDir => extractTarEntries destDir rest (Os.MkdirAll destPath d)
        | TypeReg =>
            let d := Os.MkdirAll (Filepath.Dir destPath) d in
            let d := snd (Os.WriteFile destPath (t_Data header) d) in
            match t_CopyErr header with
            | Some err => (Some err, d)
            | None => extractTarEntries destDir rest d
            end
        | TypeOther => extractTarEntries destDir rest d
        end
  end.

(** [extractTarGz] extracts a tar.gz archive to the destination
    directory. *)
Definition extractTarGz (archivePath destDir : string) (d : Os.Disk) : option error * Os.Disk :=
  match Os.ReadFile archivePath d with
  | Err err => (Some ("failed to open archive: " ++ err)%string, d)
  | Ok bytes =>
      match openTarGz bytes with
      | Err err => (Some ("failed to create gzip reader: " ++ err)%string, d)
      | Ok entries => extractTarEntries destDir entries d
      end
  end.

(** [ExtractArchive] extracts an archive (zip, tar.gz) to the destination
    directory, by the extension of its path. *)
Definition ExtractArchive (archivePath destDir : string) (d : Os.Disk) : option error * Os.Disk :=
  let lower := Strings.ToLower archivePath in
  if Strings.HasSuffix lower ".zip" then extractZip archivePath destDir d
  else if Strings.HasSuffix lower ".tar.gz" || Strings.HasSuffix lower ".tgz"
  then extractTarGz archivePath destDir d
  else (Some ("unsupported archive format: " ++ archivePath)%string, d).
End Archives.

End Ioutil.

(** ** internal/verget: version manifests *)

Module Verget.

Record Release := mkRelease {
  r_URL : string;
  r_Checksum : string;
  r_Size : Z
}.

Record Manifest := mkManifest {
  m_Version : string;
  m_DownloadURL : gmap string (gmap string Release)
}.

Record CachedManifest := mkCached {
  c_Manifest : option Manifest;
  c_Build : Z;
  c_Version : string;
  c_URL : string;
  c_Hash : string;
  c_Size : Z
}.

(** A [Getter]: its component and its cache (nil is [None]). *)
Record Getter := mkGetter {
  component : string;
  cache : option CachedManifest
}.

Section Verget.
Variable Domain : string.
(** The answers of the version server. *)
Variable server : Ioutil.Request -> result Manifest.

(** [GetManifest] fetches the version manifest for a channel and a
    component; it returns the offline sentinel in offline mode. *)
Definition GetManifest (channel comp : string) (w : Ioutil.Wire)
  : result Manifest * Ioutil.Wire :=
  match Net.OfflineError (Ioutil.mode w) with
  | Some err => (Err err, w)
  | None =>
      let manifestURL := Endpoints.LauncherVersion Domain channel comp in
      match Ioutil.Get server None manifestURL [] w with
      | (Err err, w') =>
          (Err ("failed to fetch manifest for " ++ channel ++ "/" ++ comp ++ ": " ++ err)%string, w')
      | (Ok manifest, w') => (Ok manifest, w')
      end
  end.

(** [Getter.Get] returns the cached manifest or fetches a new one. *)
Definition Get (g : Getter) (channel : string) (w : Ioutil.Wire)
  : result CachedManifest * Getter * Ioutil.Wire :=
  match cache g with
  | Some c => (Ok c, g, w)
  | None =>
      match GetManifest channel (component g) w with
      | (Err err, w') => (Err err, g, w')
      | (Ok manifest, w') =>
          let cached := {| c_Manifest := Some manifest; c_Build := 0;
                           c_Version := m_Version manifest;
                           c_URL := ""; c_Hash := ""; c_Size := 0 |} in
          (Ok cached, {| component := component g; cache := Some cached |}, w')
      end
  end.

Definition Invalidate (g : Getter) : Getter :=
  {| component := component g; cache := None |}.
End Verget.

End Verget.

(** ** internal/account *)

Module Account.

Record Token := mkToken {
  AccessToken : string;
  RefreshToken : string;
  Expiry : Z
}.

Record Profile := mkProfile {
  p_Name : string;
  UUID : string;
  Entitlements : list string;
  p_Token : Token
}.

Record Patchline := mkPatchline {
  pl_Name : string;
  pl_Version : Z
}.

(** [time.Time] is an instant in [Z]; a pointer that may be nil is an
    [option]. [CurrentProfile] holds the profile it points to. *)
Record Account := mkAccount {
  Profiles : list Profile;
  Patchlines : gmap string Patchline;
  EULAAcceptedAt : option Z;
  a_Token : Token;
  SelectedProfile : option string;
  SelectedChannel : option string;
  CurrentProfile : option Profile;
  LastRefresh : Z;
  filePath : string
}.

(** The response of the launcher data API. *)
Record launcherData := mkLauncherData {
  Owner : string;
  d_Profiles : list Profile;
  d_Patchlines : gmap string Patchline;
  d_EULAAcceptedAt : option Z
}.

Section Account.
Variable Domain : string.
Variable Release : string.
Variables GOOS GOARCH : string.
Variable environ : gmap string string.
(** The answers of the account data server and the clock. *)
Variable server : Ioutil.Request -> result launcherData.
Variable now : Z.

(** [Refresh] fetches the latest account data from the server. *)
Definition Refresh (a : Account) (client : option string) (cause : string) (w : Ioutil.Wire)
  : option error * Account * Ioutil.Wire :=
  match Net.OfflineError (Ioutil.mode w) with
  | Some err => (Some err, a, w)
  | None =>
      let params := [("os", Build.OS Release GOOS environ);
                     ("arch", Build.Arch Release GOARCH environ)]%string in
      match Ioutil.Get server client (Endpoints.LauncherData Domain) params w with
      | (Err err, w') =>
          (Some ("error fetching account launcher data: " ++ err)%string, a, w')
      | (Ok data, w') =>
          if decide (length (d_Profiles data) = 0) then (None, a, w')
          else
            (None,
             {| Profiles := d_Profiles data;
                Patchlines := d_Patchlines data;
                EULAAcceptedAt := d_EULAAcceptedAt data;
                a_Token := a_Token a;
                SelectedProfile := SelectedProfile a;
                SelectedChannel := SelectedChannel a;
                CurrentProfile := CurrentProfile a;
                LastRefresh := now;
                filePath := filePath a |},
             w')
      end
  end.
End Account.

Definition set_current (current : option Profile) (selected : option string) (a : Account)
  : Account :=
  {| Profiles := Profiles a; Patchlines := Patchlines a;
     EULAAcceptedAt := EULAAcceptedAt a; a_Token := a_Token a;
     SelectedProfile := selected; SelectedChannel := SelectedChannel a;
     CurrentProfile := current; LastRefresh := LastRefresh a; filePath := filePath a |}.

(** [SetCurrentProfile] sets the current profile by UUID: the empty
    UUID clears it, otherwise the first profile of the list with this
    UUID becomes the current one; an error when there is none. *)
Definition SetCurrentProfile (uuid : string) (a : Account) : option error * Account :=
  if String.eqb uuid "" then (None, set_current None None a)
  else
    match find (fun p => String.eqb (UUID p) uuid) (Profiles a) with
    | Some p => (None, set_current (Some p) (Some uuid) a)
    | None => (Some ("no profile with UUID " ++ uuid ++ " found")%string, a)
    end.

(** [GetCurrentProfile] returns the profile of the list that has the
    UUID of the current profile, nil when no profile is selected or the
    list no longer holds it. *)
Definition GetCurrentProfile (a : Account) : option Profile :=
  match CurrentProfile a with
  | None => None
  | Some current => find (fun p => String.eqb (UUID p) (UUID current)) (Profiles a)
  end.

End Account.

(** ** float64

    Go's [float64] is IEEE 754 binary64, which is what Rocq's primitive
    floats are; a decimal constant denotes the nearest binary64 value in
    both. *)

Module Float64.

(** The conversion [float64(i)] of an [int64], rounding to nearest. *)
Definition of_int64 (i : Z) : float :=
  if (i =? - 2 ^ 63)%Z then (- (PrimFloat.of_uint63 (Uint63.of_Z (2 ^ 62))) * 2)%float
  else if (i <? 0)%Z then (- PrimFloat.of_uint63 (Uint63.of_Z (- i)))%float
  else PrimFloat.of_uint63 (Uint63.of_Z i).

Definition of_int (n : nat) : float := of_int64 (Z.of_nat n).

End Float64.

(** ** internal/download: throttled progress reports *)

Module Download.
Local Open Scope float_scope.
#[local] Set Warnings "-inexact-float".

(** [ProgressReport] is what the status callback receives. *)
Record ProgressReport := mkReport {
  StatusKey : string;
  Data : gmap string string;
  Progress : float;
  StatusType : string;
  BytesDownloaded : Z;
  TotalBytes : Z;
  Speed : Z
}.

(** The variables a reporter closes over. *)
Record Throttle := mkThrottle {
  lastProgress : float;
  lastSpeed : Z
}.

Definition fresh : Throttle := {| lastProgress := 0; lastSpeed := 0 |}.

(** [shouldReportProgress]: always at the boundaries, else when the
    progress changed by at least 1%. *)
Definition shouldReportProgress (lastProgress currentProgress : float) : bool :=
  if currentProgress <? 0.01 then true
  else if 0.99 <=? currentProgress then true
  else 0.01 <=? currentProgress - lastProgress.

(** The progress value a [ReporterWithTotal] computes for an update. *)
Definition finalProgress (totalBytes : Z) (progressScale progressOffset : float)
    (bytesDownloaded : Z) : float :=
  let progress :=
    if (0 <? totalBytes)%Z then
      let downloaded :=
        if (totalBytes <? bytesDownloaded)%Z then totalBytes else bytesDownloaded in
      Float64.of_int64 downloaded / Float64.of_int64 totalBytes
    else 0 in
  let progress := if 0 <? progressScale then progress * progressScale else progress in
  progressOffset + progress.

(** One call of the closure returned by [ReporterWithTotal]: the new
    values of the closed-over variables and the report handed to the
    callback, if any. *)
Definition ReporterWithTotal (statusKey : string) (data : gmap string string)
    (totalBytes : Z) (progressScale progressOffset : float)
    (st : Throttle) (bytesDownloaded speed : Z) : Throttle * option ProgressReport :=
  let final := finalProgress totalBytes progressScale progressOffset bytesDownloaded in
  let shouldReport := shouldReportProgress (lastProgress st) final in
  if negb shouldReport && (speed =? lastSpeed st)%Z then (st, None)
  else
    ({| lastProgress := final; lastSpeed := speed |},
     Some {| StatusKey := statusKey; Data := data; Progress := final;
             StatusType := "update_status"; BytesDownloaded := bytesDownloaded;
             TotalBytes := totalBytes; Speed := speed |}).

(** One call of the closure returned by [Reporter], which knows no
    total: its progress is the offset. *)
Definition Reporter (statusKey : string) (data : gmap string string)
    (progressScale progressOffset : float)
    (st : Throttle) (bytesDownloaded speed : Z) : Throttle * option ProgressReport :=
  let progress := 0 in
  let progress := if 0 <? progressScale then progress * progressScale else progress in
  let final := progressOffset + progress in
  let shouldReport := shouldReportProgress (lastProgress st) final in
  if negb shouldReport && (speed =? lastSpeed st)%Z then (st, None)
  else
    ({| lastProgress := final; lastSpeed := speed |},
     Some {| StatusKey := statusKey; Data := data; Progress := final;
             StatusType := "update_status"; BytesDownloaded := bytesDownloaded;
             TotalBytes := -1; Speed := speed |}).

(** A download feeds its raw updates [(bytesDownloaded, speed)] to the
    reporter one after the other; [feed] collects the reports the
    callback receives, oldest first. *)
Fixpoint feed (reporter : Throttle -> Z -> Z -> Throttle * option ProgressReport)
    (st : Throttle) (updates : list (Z * Z)) : list ProgressReport :=
  match updates with
  | [] => []
  | (b, v) :: rest =>
      match reporter st b v with
      | (st', Some r) => r :: feed reporter st' rest
      | (st', None) => feed reporter st' rest
      end
  end.

(** The condition of the specification for one update, on the values the
    reporter holds. *)
Definition report_due (st : Throttle) (final : float) (speed : Z) : Prop :=
  (final <? 0.01) = true \/ (0.99 <=? final) = true
  \/ (0.01 <=? final - lastProgress st) = true \/ speed <> lastSpeed st.

(** A download of [total] bytes read in chunks of [chunk] bytes at a
    steady speed: the first [n] raw updates. *)
Definition steady (chunk speed : Z) (n : nat) : list (Z * Z) :=
  map (fun i => ((Z.of_nat i + 1) * chunk, speed)%Z) (seq 0 n).

End Download.

(** ** internal/pkg: the package updaters and the coordinator *)

Module Pkg.
#[local] Set Warnings "-inexact-float".

Definition StateDownloading : string := "downloading".
Definition StateDownloadingPatch : string := "downloading_patch".
Definition StateDownloadingSignature : string := "downloading_patch_signature".
Definition StateApplyingPatch : string := "applying_patch".
Definition StateValidatingPatch : string := "validating_patch".
Definition StateInstalling : string := "installing".
Definition StateComplete : string := "complete".

(** [UpdateStatus] as the reporter receives it; the fields no call of
    this package sets are left out. *)
Record UpdateStatus := mkStatus {
  us_State : string;
  us_Progress : float
}.

Record launcherUpdate := mkLauncherUpdate {
  lu_Channel : string;
  lu_CurrentVersion : string;
  lu_CurrentBuild : Z;
  lu_TargetVersion : string;
  lu_TargetBuild : Z;
  lu_DownloadURL : string;
  lu_Hash : string;
  lu_Size : Z
}.

Record javaUpdate := mkJavaUpdate {
  ju_Channel : string;
  ju_CurrentVersion : option Appstate.Dep;
  ju_TargetVersion : string;
  ju_TargetBuild : Z;
  ju_DownloadURL : string;
  ju_Hash : string;
  ju_Size : Z
}.

Record gameBuild := mkGameBuild {
  gb_Build : Z;
  gb_Version : string;
  gb_Hash : string
}.

(** A patch between two game builds, with the paths of its downloaded
    files (empty until downloaded). *)
Record gamePatch := mkGamePatch {
  FromBuild : Z;
  ToBuild : Z;
  PatchURL : string;
  PatchSize : Z;
  SignatureURL : string;
  SigSize : Z;
  patchPath : string;
  sigPath : string
}.

(** A pending game update. [Patches] are the steps of the patch set; the
    steps are distinct objects. *)
Record gameUpdate := mkGameUpdate {
  gu_Channel : string;
  gu_CurrentBuild : option gameBuild;
  gu_TargetBuild : Z;
  gu_Version : string;
  Patches : list gamePatch
}.

(** The [Update] interface with its three implementations. *)
Inductive Update :=
| Launcher (u : launcherUpdate)
| Java (u : javaUpdate)
| Game (u : gameUpdate).

Record GamePatchline := mkGamePatchline {
  gp_Name : string;
  gp_Version : string;
  NewestBuild : Z
}.

Record Auth := mkAuth {
  au_Token : string;
  Account : option (gmap string GamePatchline)
}.

(** The process-wide state the checks work on: the three manifest
    getters and the network. *)
Record Process := mkProcess {
  gameManifest : Verget.Getter;
  javaManifest : Verget.Getter;
  launcherManifest : Verget.Getter;
  wire : Ioutil.Wire
}.

(** The getters as [init] leaves them. *)
Definition init (w : Ioutil.Wire) : Process :=
  {| gameManifest := Verget.mkGetter "game" None;
     javaManifest := Verget.mkGetter "jre" None;
     launcherManifest := Verget.mkGetter "launcher" None;
     wire := w |}.

Section Checks.
(** Build-time variables and the version server. *)
Variables Release Version : string.
Variable BuildNumber : Z.
Variable Domain : string.
Variable server : Ioutil.Request -> result Verget.Manifest.

(** [CheckForLauncherUpdate] checks if a launcher update is available. *)
Definition CheckForLauncherUpdate (p : Process) : result (option Update) * Process :=
  let currentVersion := Version in
  let currentBuild := BuildNumber in
  match Verget.Get Domain server (launcherManifest p) Release (wire p) with
  | (Err err, g, w) =>
      (Err ("failed to get launcher manifest: " ++ err)%string,
       {| gameManifest := gameManifest p; javaManifest := javaManifest p;
          launcherManifest := g; wire := w |})
  | (Ok cached, g, w) =>
      let p' := {| gameManifest := gameManifest p; javaManifest := javaManifest p;
                   launcherManifest := g; wire := w |} in
      if (Verget.c_Build cached <=? currentBuild)%Z then (Ok None, p')
      else
        (Ok (Some (Launcher
           {| lu_Channel := Release;
              lu_CurrentVersion := currentVersion;
              lu_CurrentBuild := currentBuild;
              lu_TargetVersion := Verget.c_Version cached;
              lu_TargetBuild := Verget.c_Build cached;
              lu_DownloadURL := Verget.c_URL cached;
              lu_Hash := Verget.c_Hash cached;
              lu_Size := Verget.c_Size cached |})), p')
  end.

(** [CheckForJavaUpdate] checks if a Java runtime update is available. *)
Definition CheckForJavaUpdate (state : Appstate.State) (channel : string) (p : Process)
  : result (option Update) * Process :=
  let current := Appstate.GetDependency "jre" state in
  match Verget.Get Domain server (javaManifest p) channel (wire p) with
  | (Err err, g, w) =>
      (Err ("failed to get Java manifest: " ++ err)%string,
       {| gameManifest := gameManifest p; javaManifest := g;
          launcherManifest := launcherManifest p; wire := w |})
  | (Ok cached, g, w) =>
      let p' := {| gameManifest := gameManifest p; javaManifest := g;
                   launcherManifest := launcherManifest p; wire := w |} in
      let upToDate :=
        match current with
        | Some c => (Verget.c_Build cached <=? Appstate.Build c)%Z
        | None => false
        end in
      if upToDate then (Ok None, p')
      else
        (Ok (Some (Java
           {| ju_Channel := channel;
              ju_CurrentVersion := current;
              ju_TargetVersion := Verget.c_Version cached;
              ju_TargetBuild := Verget.c_Build cached;
              ju_DownloadURL := Verget.c_URL cached;
              ju_Hash := Verget.c_Hash cached;
              ju_Size := Verget.c_Size cached |})), p')
  end.

(** [Game.currentVersion]: the installed game build. *)
Definition currentVersion (state : Appstate.State) : option gameBuild :=
  match Appstate.GetDependency "game" state with
  | None => None
  | Some dep =>
      Some {| gb_Build := Appstate.Build dep; gb_Version := Appstate.Version dep;
              gb_Hash := Appstate.Hash dep |}
  end.

(** [Game.getPatchSet]: the fetch is not implemented in the sources,
    the patch set it returns has no step. *)
Definition getPatchSet (channel : string) (fromBuild : Z) : result (list gamePatch) :=
  Ok [].

(** [Game.CheckForUpdate] for the game of [channel] with [state]. *)
Definition CheckForUpdate (channel : string) (state : Appstate.State) (auth : Auth)
  : result (option Update) :=
  match Account auth with
  | None => Err "no authenticated account available for update check"%string
  | Some patchlines =>
      match patchlines !! channel with
      | None => Err ("no patchline available for channel " ++ channel)%string
      | Some patchline =>
          if (NewestBuild patchline <? 1)%Z
          then Err ("no builds available for channel " ++ channel)%string
          else
            let current := currentVersion state in
            let currentBuild :=
              match current with
              | Some c => gb_Build c
              | None => 0%Z
              end in
            if (currentBuild =? NewestBuild patchline)%Z then Ok None
            else
              match getPatchSet channel currentBuild with
              | Err err =>
                  Err ("error getting patch set for channel " ++ channel ++ ": " ++ err)%string
              | Ok steps =>
                  if decide (length steps = 0)
                  then Err ("no patches available for channel " ++ channel ++ " from build "
                            ++ Strconv.FormatInt currentBuild)%string
                  else
                    Ok (Some (Game
                      {| gu_Channel := channel;
                         gu_CurrentBuild := current;
                         gu_TargetBuild := NewestBuild patchline;
                         gu_Version := gp_Version patchline;
                         Patches := steps |}))
              end
      end
  end.

(** [CheckAllUpdates] checks for updates across all components, the
    launcher first. *)
Definition CheckAllUpdates (state : Appstate.State) (auth : Auth) (channel : string)
    (p : Process) : result (list Update) * Process :=
  let updates := [] in
  match CheckForLauncherUpdate p with
  | (Err err, p1) => (Err err, p1)
  | (Ok (Some launcherUpdate), p1) =>
      (* Return early if launcher needs update - it should be applied first *)
      (Ok (updates ++ [launcherUpdate]), p1)
  | (Ok None, p1) =>
      match CheckForJavaUpdate state channel p1 with
      | (Err err, p2) => (Err err, p2)
      | (Ok javaUpdate, p2) =>
          let updates :=
            match javaUpdate with
            | Some u => updates ++ [u]
            | None => updates
            end in
          match CheckForUpdate channel state auth with
          | Err err => (Err err, p2)
          | Ok gameUpdate =>
              let updates :=
                match gameUpdate with
                | Some u => updates ++ [u]
                | None => updates
                end in
              (Ok updates, p2)
          end
      end
  end.
End Checks.

(** The state an [Apply] works on: the disk, the keyring, the statuses
    handed to the reporter (oldest first), the processes spawned and the
    number of times the context was polled. *)
Record Run := mkRun {
  disk : Os.Disk;
  keyring : Keyring.Store;
  reported : list UpdateStatus;
  spawned : list (string * list string);
  polls : nat
}.

Definition with_disk (d : Os.Disk) (r : Run) : Run :=
  {| disk := d; keyring := keyring r; reported := reported r;
     spawned := spawned r; polls := polls r |}.

Definition with_keyring (k : Keyring.Store) (r : Run) : Run :=
  {| disk := disk r; keyring := k; reported := reported r;
     spawned := spawned r; polls := polls r |}.

(** A call of the reporter. *)
Definition report (st : UpdateStatus) (r : Run) : Run :=
  {| disk := disk r; keyring := keyring r; reported := reported r ++ [st];
     spawned := spawned r; polls := polls r |}.

Definition spawn (bin : string) (args : list string) (r : Run) : Run :=
  {| disk := disk r; keyring := keyring r; reported := reported r;
     spawned := spawned r ++ [(bin, args)]; polls := polls r |}.

(** How a call ends: it returns, or the process exits. *)
Inductive Outcome :=
| Returned (err : option error)
| Exited (code : Z).

Section Apply.
Variable Release : string.
Variable storage : string.
Variable environ : gmap string string.
(** [os.Executable] and [syscall.Getpid]. *)
Variable executable : result string.
Variable pid : Z.
(** The context: what [ctx.Err] answers at each poll, nil while the
    context is not done. *)
Variable ctx : nat -> option error.
(** The collaborators that are not part of the sources:
    [download.DownloadTemp] (cache directory, URL, expected hash), the
    run of a binary with [-test], [fork.RunElevated], [os.MkdirTemp]
    and the patch tool ([applyWharf], [validateWharf]) with the
    progress values it hands to its state consumer. *)
Variable DownloadTemp : string -> string -> string -> Os.Disk -> result string * Os.Disk.
Variable runTest : string -> Os.Disk -> option error.
Variable RunElevated : string -> list string -> option error.
Variable MkdirTemp : string -> string -> Os.Disk -> result string * Os.Disk.
Variable applyWharf :
  string -> string -> string -> string -> Os.Disk -> option error * list float * Os.Disk.
Variable validateWharf : string -> string -> Os.Disk -> option error * list float.

(** [select { case <-ctx.Done(): ...; default: }]. *)
Definition poll (r : Run) : option error * Run :=
  (ctx (polls r),
   {| disk := disk r; keyring := keyring r; reported := reported r;
      spawned := spawned r; polls := S (polls r) |}).

Definition InStorageDir (name : string) : string := Filepath.Join storage name.

(** Modelled from the spec: [hytale.PackageDir] is not part of the
    sources; an installed package tree is
    [<storage>/pkg/<package>/<channel>/latest]. *)
Definition PackageDir (package channel version : string) : string :=
  Filepath.Join (Filepath.Join (Filepath.Join (InStorageDir "pkg") package) channel) version.

(** [download.DownloadTempSimple]. *)
Definition DownloadTempSimple (url : string) (r : Run) : result string * Run :=
  let cacheDir := InStorageDir "cache" in
  let d := Os.MkdirAll cacheDir (disk r) in
  let '(res, d') := DownloadTemp cacheDir url "" d in
  (res, with_disk d' r).

(** [ioutil.MakeExecutable]. *)
Definition MakeExecutable (path : string) (d : Os.Disk) : option error :=
  match Os.files d !! path with
  | None => Some ("failed to stat binary: " ++ Os.ErrNotExist)%string
  | Some _ => None
  end.


(** *** The launcher *)

Definition validateBin (binPath : string) (r : Run) : option error :=
  match MakeExecutable binPath (disk r) with
  | Some err => Some err
  | None =>
      match runTest binPath (disk r) with
      | Some _ => Some "hytale-launcher binary is not functional"%string
      | None => None
      end
  end.

Definition LoadSelfUpdateKey (k : Keyring.Store) : result (list Z) * Keyring.Store :=
  Keyring.GetOrGenKey Crypto.selfUpdateKeyID k.

(** The arguments [selfUpdate] builds for the helper process. *)
Definition helperArgs (u : launcherUpdate) (newBinaryPath currentExe pidStr sig : string)
  : list string :=
  [ "-start-pid"; pidStr;
    "-source-exe"; newBinaryPath;
    "-dest-exe"; currentExe;
    "-launcher-patchline"; Release;
    "-launcher-version"; lu_TargetVersion u;
    "-sig"; sig ]%string.

(** [selfUpdate] performs a self-update by spawning a helper process. *)
Definition selfUpdate (u : launcherUpdate) (newBinaryPath : string) (r : Run)
  : Outcome * Run :=
  match LoadSelfUpdateKey (keyring r) with
  | (Err err, k) =>
      (Returned (Some ("failed to load self-update key: " ++ err)%string), with_keyring k r)
  | (Ok key, k) =>
      let r := with_keyring k r in
      match executable with
      | Err err => (Returned (Some err), r)
      | Ok currentExe =>
          let pidStr := Strconv.FormatInt pid in
          let sig := Crypto.HMAC (bytes_of_string pidStr) key in
          let args := helperArgs u newBinaryPath currentExe pidStr sig in
          match RunElevated newBinaryPath args with
          | Some err => (Returned (Some err), r)
          | None => (Exited 0, spawn newBinaryPath args r)
          end
      end
  end.

(** [launcherUpdate.Apply]. *)
Definition launcherApply (u : launcherUpdate) (r : Run) : Outcome * Run :=
  match DownloadTempSimple (lu_DownloadURL u) r with
  | (Err err, r) => (Returned (Some ("failed to download launcher: " ++ err)%string), r)
  | (Ok newBinaryPath, r) =>
      let r := report {| us_State := StateInstalling; us_Progress := 0.8 |} r in
      match validateBin newBinaryPath r with
      | Some err =>
          let r := with_disk (snd (Os.Remove newBinaryPath (disk r))) r in
          (Returned (Some ("launcher validation failed: " ++ err)%string), r)
      | None =>
          match selfUpdate u newBinaryPath r with
          | (Returned (Some err), r) =>
              let r := with_disk (snd (Os.Remove newBinaryPath (disk r))) r in
              (Returned (Some ("self-update failed: " ++ err)%string), r)
          | (Returned None, r) =>
              (Returned None, report {| us_State := StateComplete; us_Progress := 1.0 |} r)
          | (Exited code, r) => (Exited code, r)
          end
      end
  end.

(** *** The game *)

(** [gamePatch.download]: the patch, then its signature; each path is
    stored in the step as soon as its download succeeded. *)
Definition download (p : gamePatch) (idx total : nat) (r : Run)
  : option error * gamePatch * Run :=
  match DownloadTempSimple (PatchURL p) r with
  | (Err err, r) => (Some err, p, r)
  | (Ok path, r) =>
      let p := {| FromBuild := FromBuild p; ToBuild := ToBuild p; PatchURL := PatchURL p;
                  PatchSize := PatchSize p; SignatureURL := SignatureURL p;
                  SigSize := SigSize p; patchPath := path; sigPath := sigPath p |} in
      match DownloadTempSimple (SignatureURL p) r with
      | (Err err, r) => (Some err, p, r)
      | (Ok spath, r) =>
          (None,
           {| FromBuild := FromBuild p; ToBuild := ToBuild p; PatchURL := PatchURL p;
              PatchSize := PatchSize p; SignatureURL := SignatureURL p;
              SigSize := SigSize p; patchPath := patchPath p; sigPath := spath |},
           r)
      end
  end.

(** [gamePatch.mkStagingDir]. *)
Definition mkStagingDir (d : Os.Disk) : result string * Os.Disk :=
  match environ !! "TMPDIR"%string with
  | Some tmpDir => MkdirTemp tmpDir "hytale-patch-staging-*" d
  | None =>
      match environ !! "XDG_CACHE_HOME"%string with
      | Some cacheDir => MkdirTemp cacheDir "hytale-patch-staging-*" d
      | None => MkdirTemp "" "hytale-patch-staging-*" d
      end
  end.

Definition report_all (state : string) (ps : list float) (r : Run) : Run :=
  fold_left (fun r pr => report {| us_State := state; us_Progress := pr |} r) ps r.

(** [gamePatch.apply]; the staging directory is removed on every way
    out. *)
Definition apply (p : gamePatch) (gameDir : string) (r : Run) : option error * Run :=
  match mkStagingDir (disk r) with
  | (Err err, d) =>
      (Some ("failed to create staging directory: " ++ err)%string, with_disk d r)
  | (Ok stagingDir, d) =>
      let '(res, progress, d) := applyWharf (patchPath p) (sigPath p) gameDir stagingDir d in
      let r := report_all StateApplyingPatch progress (with_disk d r) in
      let r := with_disk (Os.RemoveAll stagingDir (disk r)) r in
      match res with
      | Some err => (Some ("failed to apply patch: " ++ err)%string, r)
      | None => (None, r)
      end
  end.

(** [gamePatch.validate]. *)
Definition validate (p : gamePatch) (gameDir : string) (r : Run) : option error * Run :=
  let '(res, progress) := validateWharf (sigPath p) gameDir (disk r) in
  let r := report_all StateValidatingPatch progress r in
  match res with
  | Some err => (Some ("validation failed: " ++ err)%string, r)
  | None => (None, r)
  end.

(** [deletePatchFiles] removes the downloaded patch and signature
    files of every step. The removals run in parallel in the source;
    they commute on the disk. *)
Definition deletePatch (d : Os.Disk) (p : gamePatch) : Os.Disk :=
  let d := if String.eqb (patchPath p) "" then d else snd (Os.Remove (patchPath p) d) in
  if String.eqb (sigPath p) "" then d else snd (Os.Remove (sigPath p) d).

Definition deletePatchFiles (steps : list gamePatch) (d : Os.Disk) : Os.Disk :=
  fold_left deletePatch steps d.

(** [saveSig] moves the signature file of the last step to
    [<gameDir>/.signature]. *)
Definition saveSig (steps : list gamePatch) (gameDir : string) (d : Os.Disk)
  : option error * Os.Disk :=
  match last (A:=gamePatch) steps with
  | None => (None, d)
  | Some lastPatch =>
      if String.eqb (sigPath lastPatch) "" then (None, d)
      else
        let sigDest := Filepath.Join gameDir ".signature" in
        Os.Rename (sigPath lastPatch) sigDest d
  end.

(** [demoteOldVersions] only logs. *)
Definition demoteOldVersions (u : gameUpdate) (state : Appstate.State) : Appstate.State :=
  state.

(** [fallback] cleans up the patch files and returns the original
    error. *)
Definition fallback (steps : list gamePatch) (originalErr : error) (r : Run)
  : option error * Run :=
  (Some originalErr, with_disk (deletePatchFiles steps (disk r)) r).

(** How a loop over the steps ends. *)
Inductive Loop :=
| Completed (steps : list gamePatch) (r : Run)
| Cancelled (err : error) (steps : list gamePatch) (r : Run)
| Failed (err : error) (steps : list gamePatch) (r : Run).

(** The download loop of [gameUpdate.Apply]: [before] are the steps
    already downloaded, [rest] those still to download. *)
Fixpoint downloadLoop (total : nat) (before rest : list gamePatch) (r : Run) : Loop :=
  match rest with
  | [] => Completed before r
  | patch :: rest' =>
      match poll r with
      | (Some err, r) => Cancelled err (before ++ patch :: rest') r
      | (None, r) =>
          match download patch (length before) total r with
          | (Some err, patch', r) => Failed err (before ++ patch' :: rest') r
          | (None, patch', r) => downloadLoop total (before ++ [patch']) rest' r
          end
      end
  end.

(** The apply loop of [gameUpdate.Apply] from step [i] on. *)
Fixpoint applyLoop (all : list gamePatch) (gameDir : string) (i : nat)
    (rest : list gamePatch) (r : Run) : Loop :=
  match rest with
  | [] => Completed all r
  | patch :: rest' =>
      match poll r with
      | (Some err, r) => Cancelled err all r
      | (None, r) =>
          match apply patch gameDir r with
          | (Some err, r) => Failed err all r
          | (None, r) =>
              match validate patch gameDir r with
              | (Some err, r) => Failed err all r
              | (None, r) =>
                  let progress :=
                    (Float64.of_int (i + 1) / Float64.of_int (length all))%float in
                  let r := report {| us_State := StateApplyingPatch;
                                     us_Progress := progress |} r in
                  applyLoop all gameDir (S i) rest' r
              end
          end
      end
  end.

(** The commit phase of [gameUpdate.Apply], in the order of the
    source: clean up the patch files, save the signature (a failure is
    only logged), demote old versions, record the new dependency. *)
Definition commit (u : gameUpdate) (steps : list gamePatch) (gameDir : string)
    (state : Appstate.State) (r : Run) : Appstate.State * Run :=
  let d := deletePatchFiles steps (disk r) in
  let d := snd (saveSig steps gameDir d) in
  let state := demoteOldVersions u state in
  let state :=
    Appstate.SetDependency "game" "update"
      (Some {| Appstate.Version := gu_Version u; Appstate.Build := gu_TargetBuild u;
               Appstate.BuildID := 0; Appstate.Hash := ""; Appstate.Path := "";
               Appstate.SigDir := ""; Appstate.SigFile := "" |}) state in
  (state, report {| us_State := StateComplete; us_Progress := 1.0 |} (with_disk d r)).

(** [gameUpdate.Apply]: the error returned, the steps with the paths
    of their downloads, the channel state and the run. *)
Definition gameApply (u : gameUpdate) (state : Appstate.State) (r : Run)
  : option error * list gamePatch * Appstate.State * Run :=
  let gameDir := PackageDir "game" (gu_Channel u) "latest" in
  match downloadLoop (length (Patches u)) [] (Patches u) r with
  | Cancelled err steps r => (Some err, steps, state, r)
  | Failed err steps r =>
      let '(e, r) := fallback steps err r in (e, steps, state, r)
  | Completed steps r =>
      match applyLoop steps gameDir 0 steps r with
      | Cancelled err steps r => (Some err, steps, state, r)
      | Failed err steps r =>
          let '(e, r) := fallback steps err r in (e, steps, state, r)
      | Completed steps r =>
          let '(state, r) := commit u steps gameDir state r in
          (None, steps, state, r)
      end
  end.
(** *** The Java runtime *)

(** The run of a binary: [cmd.Start] and [cmd.Wait]. *)
Inductive Exec :=
| ExecDone
| StartFailed (err : error)
| ExitError (code : Z)
| WaitFailed (err : error).

(** The archive readers and the run of a binary with [--version]. *)
Variable openZip : list Z -> result (list Ioutil.ZipFile).
Variable openTarGz : list Z -> result (list (result Ioutil.TarEntry)).
Variable runVersion : string -> Os.Disk -> Exec.

(** [javaUpdate.uninstall] removes the old Java installation and clears
    the dependency, when a current version is known. *)
Definition uninstall (u : javaUpdate) (state : Appstate.State) (r : Run)
  : Appstate.State * Run :=
  match ju_CurrentVersion u with
  | None => (state, r)
  | Some _ =>
      let javaDir := PackageDir "jre" (ju_Channel u) "latest" in
      let r := with_disk (Os.RemoveAll javaDir (disk r)) r in
      (Appstate.SetDependency "jre" (ju_Channel u) None state, r)
  end.

(** [javaUpdate.validateBin] runs the binary with [--version], unless a
    dev build is told to skip the test runs. *)
Definition javaValidateBin (javaBin : string) (d : Os.Disk) : option error :=
  if Build.IsDev Release
     && bool_decide (is_Some (environ !! "HYTALE_LAUNCHER_NO_TEST_RUN_BINARIES"%string))
  then None
  else
    match runVersion javaBin d with
    | StartFailed err => Some ("failed to start java process: " ++ err)%string
    | ExitError code =>
        Some ("java validation failed with exit code " ++ Strconv.FormatInt code)%string
    | WaitFailed err => Some err
    | ExecDone => None
    end.

Definition javaBinaryPath (javaDir : string) : string :=
  Filepath.JoinPath [javaDir; "bin"; "java"]%string.

(** The dependency [javaUpdate.Apply] records on success. *)
Definition javaDep (u : javaUpdate) : Appstate.Dep :=
  {| Appstate.Version := ju_TargetVersion u; Appstate.Build := ju_TargetBuild u;
     Appstate.BuildID := 0; Appstate.Hash := ju_Hash u; Appstate.Path := "";
     Appstate.SigDir := ""; Appstate.SigFile := "" |}.

(** [javaUpdate.Apply]. The archive downloaded is removed on every way
    out after the download ([defer os.Remove]). *)
Definition javaApply (u : javaUpdate) (state : Appstate.State) (r : Run)
  : option error * Appstate.State * Run :=
  let '(state, r) := uninstall u state r in
  let javaDir := PackageDir "jre" (ju_Channel u) "latest" in
  let r := with_disk (Os.MkdirAll javaDir (disk r)) r in
  match DownloadTempSimple (ju_DownloadURL u) r with
  | (Err err, r) => (Some ("failed to download Java: " ++ err)%string, state, r)
  | (Ok archivePath, r) =>
      let leave (r : Run) : Run := with_disk (snd (Os.Remove archivePath (disk r))) r in
      let r := report {| us_State := StateInstalling; us_Progress := 0.8 |} r in
      match Ioutil.ExtractArchive openZip openTarGz archivePath javaDir (disk r) with
      | (Some err, d) =>
          (Some ("failed to extract Java: " ++ err)%string, state, leave (with_disk d r))
      | (None, d) =>
          let r := with_disk d r in
          let javaBin := javaBinaryPath javaDir in
          match MakeExecutable javaBin (disk r) with
          | Some err =>
              (Some ("failed to make Java executable: " ++ err)%string, state, leave r)
          | None =>
              match javaValidateBin javaBin (disk r) with
              | Some err =>
                  let r := with_disk (Os.RemoveAll javaDir (disk r)) r in
                  (Some ("Java validation failed: " ++ err)%string, state, leave r)
              | None =>
                  let state :=
                    Appstate.SetDependency "jre" (ju_Channel u) (Some (javaDep u)) state in
                  let r := report {| us_State := StateComplete; us_Progress := 1.0 |} r in
                  (None, state, leave r)
              end
          end
      end
  end.

(** *** Applying a list of updates *)

(** [update.Apply] through the [Update] interface. *)
Definition Apply (update : Update) (state : Appstate.State) (r : Run)
  : Outcome * Appstate.State * Run :=
  match update with
  | Launcher u => let '(out, r') := launcherApply u r in (out, state, r')
  | Java u => let '(err, state', r') := javaApply u state r in (Returned err, state', r')
  | Game u =>
      let '(err, _, state', r') := gameApply u state r in (Returned err, state', r')
  end.

(** The sub-reporter of [ApplyUpdates] scales the progress of a status
    before it hands it on. The updates only add to the list of reported
    statuses, so the statuses an update handed to its reporter are those
    beyond the [n] that were there before it ran. *)
Definition subReport (baseProgress updateWeight : float) (n : nat) (r : Run) : Run :=
  {| disk := disk r; keyring := keyring r;
     reported :=
       firstn n (reported r)
       ++ map (fun status =>
                 {| us_State := us_State status;
                    us_Progress := (baseProgress + us_Progress status * updateWeight)%float |})
              (skipn n (reported r));
     spawned := spawned r; polls := polls r |}.

(** The loop of [ApplyUpdates] from the update of index [i] on. *)
Fixpoint applyFrom (totalUpdates i : nat) (updates : list Update)
    (state : Appstate.State) (r : Run) : Outcome * Appstate.State * Run :=
  match updates with
  | [] => (Returned None, state, r)
  | update :: rest =>
      match poll r with
      | (Some err, r) => (Returned (Some err), state, r)
      | (None, r) =>
          let baseProgress := (Float64.of_int i / Float64.of_int totalUpdates)%float in
          let updateWeight := (1.0 / Float64.of_int totalUpdates)%float in
          let '(out, state', r') := Apply update state r in
          let r' := subReport baseProgress updateWeight (length (reported r)) r' in
          match out with
          | Returned None => applyFrom totalUpdates (S i) rest state' r'
          | _ => (out, state', r')
          end
      end
  end.

End Apply.

End Pkg.

(** ** internal/oauth: the loopback callback *)

Module Oauth.

Record stateData := mkStateData {
  State : string;
  Verifier : string
}.

(** [oauth2.Token], by its access token. *)
Record Token := mkToken {
  AccessToken : string
}.

(** The outcome of an OAuth flow as sent on the result channel. *)
Record result := mkResult {
  r_Token : option Token;
  r_Err : option error
}.

(** The fields of [Loopback] the callback reads: the state of the
    attempt in progress (nil when there is none) and the OAuth2
    configuration, by its redirect URL. *)
Record Loopback := mkLoopback {
  ClientID : string;
  RedirectURL : string;
  Port : Z;
  Config : option string;
  state : option stateData
}.

(** [url.Values.Get]: the first value of the key, or the empty string. *)
Definition Get (q : gmap string (list string)) (key : string) : string :=
  match q !! key with
  | Some (v :: _) => v
  | _ => EmptyString
  end.

Definition StatusBadRequest : Z := 400.
Definition StatusOK : Z := 200.

(** What a handler does, in order: [http.Error] with a message and a
    status code, writes to the response, a send on the result channel,
    and the start of the goroutine that exchanges the code. *)
Inductive Event :=
| HttpError (msg : string) (code : Z)
| SetHeader (key value : string)
| WriteHeader (code : Z)
| Write (body : string)
| Send (res : result)
| GoExchangeCode (code : string).

(** The page sent to the browser on success (the style attributes of
    the source's markup are left out). *)
Definition successPage : string :=
  "<!DOCTYPE html><html><head><title>Login Successful</title></head><body><div><h1>Login Successful</h1><p>You can close this window and return to the Hytale Launcher.</p></div></body></html>".

(** [handleCallback] processes the OAuth callback of the authorization
    server. *)
Definition handleCallback (l : Loopback) (query : gmap string (list string)) : list Event :=
  match state l with
  | None => [HttpError "No login in progress" StatusBadRequest]
  | Some st =>
      if negb (String.eqb (Get query "state") (State st)) then
        [ HttpError "Invalid state parameter" StatusBadRequest;
          Send {| r_Token := None; r_Err := Some "invalid state parameter"%string |} ]
      else
        let errParam := Get query "error" in
        if negb (String.eqb errParam "") then
          let errDesc := Get query "error_description" in
          [ HttpError ("Authorization error: " ++ errDesc)%string StatusBadRequest;
            Send {| r_Token := None;
                    r_Err := Some ("authorization error: " ++ errParam ++ " - " ++ errDesc)%string |} ]
        else
          let code := Get query "code" in
          if String.eqb code "" then
            [ HttpError "No authorization code received" StatusBadRequest;
              Send {| r_Token := None; r_Err := Some "no authorization code received"%string |} ]
          else
            [ SetHeader "Content-Type" "text/html";
              WriteHeader StatusOK;
              Write successPage;
              GoExchangeCode code ]
  end.

(** [exchangeCode] exchanges the authorization code for tokens;
    [exchange] is [Config.Exchange], the token endpoint asked with the
    code and the PKCE verifier, with its two results. The goroutine
    reads the state and the configuration as they are when it runs. *)
Definition exchangeCode (exchange : string -> string -> option Token * option error)
    (l : Loopback) (code : string) : list Event :=
  match state l, Config l with
  | Some st, Some _ =>
      match exchange code (Verifier st) with
      | (_, Some err) =>
          [Send {| r_Token := None; r_Err := Some ("token exchange failed: " ++ err)%string |}]
      | (token, None) => [Send {| r_Token := token; r_Err := None |}]
      end
  | _, _ => [Send {| r_Token := None; r_Err := Some "no login state available"%string |}]
  end.

(** [Stop] shuts down the loopback server and forgets the attempt; of
    the fields modelled it changes the state only. *)
Definition Stop (l : Loopback) : Loopback :=
  {| ClientID := ClientID l; RedirectURL := RedirectURL l; Port := Port l;
     Config := Config l; state := None |}.

(** A handler run starts a token exchange when it contains the start of
    the exchange goroutine, and delivers a token when it sends a result
    that carries one. *)
Definition starts_exchange (evs : list Event) : Prop :=
  exists code, In (GoExchangeCode code) evs.

Definition delivers_token (evs : list Event) : Prop :=
  exists tok err, In (Send {| r_Token := Some tok; r_Err := err |}) evs.

End Oauth.

(** The claim's reading of "under the temp directory": the directory
    itself or a path below it, as opposed to a path that only shares the
    characters of the prefix. *)
Definition inside_dir (dir p : string) : bool :=
  String.eqb p dir || String.prefix (dir ++ "/") p.

(** ** Sample inputs *)

Module Samples.
Local Open Scope Z_scope.

(** *** Channel state *)

Definition dep (version : string) (build : Z) : Appstate.Dep :=
  {| Appstate.Version := version; Appstate.Build := build; Appstate.BuildID := 0;
     Appstate.Hash := ""; Appstate.Path := ""; Appstate.SigDir := "";
     Appstate.SigFile := "" |}.

(** A channel "release" with game build 40 installed. *)
Definition release40 : Appstate.State :=
  {| Appstate.Channel := "release"; Appstate.IsNew := false;
     Appstate.Platform := Some ("linux", "amd64")%string;
     Appstate.Dependencies := {[ "game"%string := {[ "0.40.0"%string := dep "0.40.0" 40 ]} ]};
     Appstate.OfflineReady := true; Appstate.DataDir := "/home/u/.local/share/hytale" |}.

(** A channel "release" with JRE build 17 installed. *)
Definition withJre : Appstate.State :=
  {| Appstate.Channel := "release"; Appstate.IsNew := false;
     Appstate.Platform := Some ("linux", "amd64")%string;
     Appstate.Dependencies := {[ "jre"%string := {[ "17.0.9"%string := dep "17.0.9" 17 ]} ]};
     Appstate.OfflineReady := false; Appstate.DataDir := "/home/u/.local/share/hytale" |}.

(** *** Self-update *)

Definition key : list Z := bytes_of_string "0123456789abcdef0123456789abcdef".

(** A keyring that holds the same key under both names the launcher and
    the helper ask for. *)
Definition keyring : Keyring.Store :=
  {| Keyring.keys := {[ Crypto.selfUpdateKeyID := key; Selfupdate.updateKeyName := key ]};
     Keyring.entropy := [] |}.

Definition emptyDisk : Os.Disk := {| Os.files := ∅; Os.dirs := ∅ |}.

Definition run0 : Pkg.Run :=
  {| Pkg.disk := emptyDisk; Pkg.keyring := keyring; Pkg.reported := [];
     Pkg.spawned := []; Pkg.polls := 0 |}.

Definition launcher100 : Pkg.launcherUpdate :=
  {| Pkg.lu_Channel := "release"; Pkg.lu_CurrentVersion := "1.0.99";
     Pkg.lu_CurrentBuild := 99; Pkg.lu_TargetVersion := "1.0.100";
     Pkg.lu_TargetBuild := 100; Pkg.lu_DownloadURL := "https://launcher.hytale.com/dl/100";
     Pkg.lu_Hash := ""; Pkg.lu_Size := 0 |}.

Definition newBinary : string := "/tmp/hytale-launcher-100".
Definition currentExe : string := "/tmp/hytale/hytale-launcher".

(** The self-update step of the running launcher, process 4242, whose
    executable is [currentExe]; the fork succeeds. *)
Definition handoff : Pkg.Outcome * Pkg.Run :=
  Pkg.selfUpdate "release" (Ok currentExe) 4242 (fun _ _ => None)
    launcher100 newBinary run0.

(** *** Self-update validation *)

(** Paths that share the characters of the prefix "/tmp" and are not in
    the temp directory. *)
Definition lookalike : Selfupdate.Vars :=
  {| Selfupdate.SourceBin := "/tmpevil/new";
     Selfupdate.TargetBin := "/tmpevil/launcher";
     Selfupdate.OldChannel := "release"; Selfupdate.OldVersion := "1.0.99";
     Selfupdate.ParentPID := 4242;
     Selfupdate.UpdateSignature := Crypto.HMAC (bytes_of_string "/tmpevil/launcher") key |}.

(** *** Network, manifests and accounts *)

Definition offline : Ioutil.Wire := {| Ioutil.mode := Net.ModeOffline; Ioutil.sent := [] |}.
Definition online : Ioutil.Wire := {| Ioutil.mode := Net.ModeOnline; Ioutil.sent := [] |}.

Definition manifest (version : string) : Verget.Manifest :=
  {| Verget.m_Version := version; Verget.m_DownloadURL := ∅ |}.

Definition versionServer (req : Ioutil.Request) : result Verget.Manifest :=
  Ok (manifest "1.0.100").

Definition token : Account.Token :=
  {| Account.AccessToken := "at"; Account.RefreshToken := "rt"; Account.Expiry := 0 |}.

Definition player : Account.Profile :=
  {| Account.p_Name := "player"; Account.UUID := "7c9e6679-7425-40de-944b-e07fc1f90ae7";
     Account.Entitlements := ["patchline:release"%string]; Account.p_Token := token |}.

Definition account : Account.Account :=
  {| Account.Profiles := [player];
     Account.Patchlines := {[ "release"%string := Account.mkPatchline "release" 41 ]};
     Account.EULAAcceptedAt := Some 1700000000;
     Account.a_Token := token;
     Account.SelectedProfile := Some (Account.UUID player);
     Account.SelectedChannel := Some "release"%string;
     Account.CurrentProfile := Some player;
     Account.LastRefresh := 1700000100;
     Account.filePath := "/home/u/.local/share/hytale/account.json" |}.

(** A response of the account server with no profile. *)
Definition noProfiles : Account.launcherData :=
  {| Account.Owner := "owner"; Account.d_Profiles := [];
     Account.d_Patchlines := {[ "release"%string := Account.mkPatchline "release" 42 ]};
     Account.d_EULAAcceptedAt := None |}.

Definition accountServer (req : Ioutil.Request) : result Account.launcherData :=
  Ok noProfiles.

(** The account after the player's profile has been selected again. *)
Definition selected : Account.Account :=
  snd (Account.SetCurrentProfile (Account.UUID player) account).


(** *** Update checks: launcher build 99 installed, build 100 in the
    launcher manifest, and a JRE manifest newer than no JRE at all. *)

Definition cached (version : string) (build : Z) : Verget.CachedManifest :=
  {| Verget.c_Manifest := Some (manifest version); Verget.c_Build := build;
     Verget.c_Version := version; Verget.c_URL := "https://launcher.hytale.com/dl";
     Verget.c_Hash := ""; Verget.c_Size := 0 |}.

Definition process : Pkg.Process :=
  {| Pkg.gameManifest := Verget.mkGetter "game" None;
     Pkg.javaManifest := Verget.mkGetter "jre" (Some (cached "17.0.9" 17));
     Pkg.launcherManifest := Verget.mkGetter "launcher" (Some (cached "1.0.100" 100));
     Pkg.wire := online |}.

Definition auth : Pkg.Auth :=
  {| Pkg.au_Token := "at";
     Pkg.Account := Some {[ "release"%string := Pkg.mkGamePatchline "release" "0.42.0" 42 ]} |}.

(** The launcher update that the check finds on [process]. *)
Definition launcherFound : Pkg.launcherUpdate :=
  {| Pkg.lu_Channel := "release"; Pkg.lu_CurrentVersion := "1.0.99";
     Pkg.lu_CurrentBuild := 99; Pkg.lu_TargetVersion := "1.0.100";
     Pkg.lu_TargetBuild := 100;
     Pkg.lu_DownloadURL := "https://launcher.hytale.com/dl";
     Pkg.lu_Hash := ""; Pkg.lu_Size := 0 |}.

(** *** OAuth *)

Definition loopback : Oauth.Loopback :=
  {| Oauth.ClientID := "hytale-launcher";
     Oauth.RedirectURL := "http://127.0.0.1:41000/callback";
     Oauth.Port := 41000;
     Oauth.Config := Some "http://127.0.0.1:41000/callback"%string;
     Oauth.state := Some {| Oauth.State := "c3RhdGU"; Oauth.Verifier := "dmVyaWZpZXI" |} |}.

(** A callback with a code and a state that is not the one of the
    attempt. *)
Definition forged : gmap string (list string) :=
  {[ "code"%string := ["X"%string]; "state"%string := ["b3RoZXI"%string] ]}.

(** *** A game update from build 40 to build 42 in two steps *)

Definition storage : string := "/home/u/.local/share/hytale".
Definition gameDir : string := "/home/u/.local/share/hytale/pkg/game/release/latest".

Definition step (from to : Z) (name : string) : Pkg.gamePatch :=
  {| Pkg.FromBuild := from; Pkg.ToBuild := to;
     Pkg.PatchURL := ("https://patches.hytale.com/" ++ name ++ ".pwr")%string;
     Pkg.PatchSize := 11;
     Pkg.SignatureURL := ("https://patches.hytale.com/" ++ name ++ ".sig")%string;
     Pkg.SigSize := 9;
     Pkg.patchPath := ""; Pkg.sigPath := "" |}.

Definition update42 : Pkg.gameUpdate :=
  {| Pkg.gu_Channel := "release";
     Pkg.gu_CurrentBuild := Some (Pkg.mkGameBuild 40 "0.40.0" "");
     Pkg.gu_TargetBuild := 42;
     Pkg.gu_Version := "0.42.0";
     Pkg.Patches := [step 40 41 "40-41"; step 41 42 "41-42"] |}.

(** The bytes the patch server answers with: the URL itself stands for
    the content of the file behind it. *)
Definition body (url : string) : list Z := bytes_of_string url.

(** A download writes the body to a new file of the cache directory. *)
Definition downloadTemp (cacheDir url expectedHash : string) (d : Os.Disk)
  : result string * Os.Disk :=
  let path := (cacheDir ++ "/download-" ++ Strconv.FormatInt (Z.of_nat (size (Os.files d))))%string in
  (Ok path, {| Os.files := <[path := body url]> (Os.files d); Os.dirs := Os.dirs d |}).

Definition mkdirTemp (dir pattern : string) (d : Os.Disk) : result string * Os.Disk :=
  let path := (dir ++ "/hytale-patch-staging-" ++ Strconv.FormatInt (Z.of_nat (size (Os.dirs d))))%string in
  (Ok path, {| Os.files := Os.files d; Os.dirs := {[path]} ∪ Os.dirs d |}).

(** A patch tool that rewrites the game binary with the bytes of the
    patch, and a validator that asks for the signature file to exist. *)
Definition patchTool (patch sig dir staging : string) (d : Os.Disk)
  : option error * list float * Os.Disk :=
  match Os.files d !! patch with
  | None => (Some "patch file not found"%string, [], d)
  | Some bytes =>
      (None, [0.5; 1]%float,
       {| Os.files := <[(dir ++ "/bin/hytale")%string := bytes]> (Os.files d);
          Os.dirs := Os.dirs d |})
  end.

Definition validator (sig dir : string) (d : Os.Disk) : option error * list float :=
  match Os.files d !! sig with
  | None => (Some "signature file not found"%string, [])
  | Some _ => (None, [1%float])
  end.

Definition never (poll : nat) : option error := None.

(** The update applied to the channel with game build 40 installed. *)
Definition applied : option error * list Pkg.gamePatch * Appstate.State * Pkg.Run :=
  Pkg.gameApply storage {[ "TMPDIR"%string := "/tmp"%string ]} never
    downloadTemp mkdirTemp patchTool validator update42 release40 run0.

Definition appliedErr : option error := fst (fst (fst applied)).
Definition appliedSteps : list Pkg.gamePatch := snd (fst (fst applied)).
Definition appliedState : Appstate.State := snd (fst applied).
Definition appliedRun : Pkg.Run := snd applied.

(** Its download phase alone, and the bytes of the signature file of the
    last step once the downloads are complete. *)
Definition downloaded : Pkg.Loop :=
  Pkg.downloadLoop storage never downloadTemp 2 [] (Pkg.Patches update42) run0.

Definition downloadedSig : option (list Z) :=
  match downloaded with
  | Pkg.Completed steps r =>
      match last steps with
      | Some p => Os.files (Pkg.disk r) !! Pkg.sigPath p
      | None => None
      end
  | _ => None
  end.

(** *** The swap of the launcher binary *)




(** *** A downloaded archive and its checksum *)

Definition archiveDisk : Os.Disk :=
  {| Os.files := {[ "/cache/jre.zip"%string := bytes_of_string "abc" ]}; Os.dirs := ∅ |}.

Definition archiveHash : string :=
  "ba7816bf8f01cfea414140de5dae2223b00361a396177a9cb410ff61f20015ad".

(** An update to build 42 with no patch to apply. *)
Definition update0 : Pkg.gameUpdate :=
  {| Pkg.gu_Channel := "release";
     Pkg.gu_CurrentBuild := Some (Pkg.mkGameBuild 40 "0.40.0" "");
     Pkg.gu_TargetBuild := 42;
     Pkg.gu_Version := "0.42.0";
     Pkg.Patches := [] |}.

(** The first step once downloaded, and its application alone. *)
Definition runDownloaded : Pkg.Run :=
  match downloaded with
  | Pkg.Completed _ r => r
  | _ => run0
  end.

Definition stepDownloaded : Pkg.gamePatch :=
  match downloaded with
  | Pkg.Completed (p :: _) _ => p
  | _ => step 40 41 "40-41"
  end.

Definition stepApplied : option error * Pkg.Run :=
  Pkg.apply {[ "TMPDIR"%string := "/tmp"%string ]} mkdirTemp patchTool
    stepDownloaded gameDir runDownloaded.

(** *** The same game update with a patch tool that fails *)



(** *** A launcher update whose new binary fails its test run *)




(** A zip archive of a runtime. *)
Definition zipJre (bytes : list Z) : result (list Ioutil.ZipFile) :=
  Ok [ Ioutil.mkZipFile "bin/" true None [] None;
       Ioutil.mkZipFile "bin/java" false None [127; 69; 76; 70] None ].

Definition noTar (bytes : list Z) : result (list (result Ioutil.TarEntry)) :=
  Err "gzip: invalid header"%string.

(** *** A Java update from build 17 to build 21 *)

Definition java21 : Pkg.javaUpdate :=
  {| Pkg.ju_Channel := "release"; Pkg.ju_CurrentVersion := Some (dep "17.0.9" 17);
     Pkg.ju_TargetVersion := "21.0.2"; Pkg.ju_TargetBuild := 21;
     Pkg.ju_DownloadURL := "https://launcher.hytale.com/jre/21.zip";
     Pkg.ju_Hash := "c0ffee"; Pkg.ju_Size := 4 |}.

(** A download that names the file in the cache after the last element
    of the URL. *)
Definition downloadZip (cacheDir url expectedHash : string) (d : Os.Disk)
  : result string * Os.Disk :=
  let path := (cacheDir ++ "/jre-21.zip")%string in
  (Ok path, {| Os.files := <[path := body url]> (Os.files d); Os.dirs := Os.dirs d |}).

Definition crashes (bin : string) (d : Os.Disk) : Pkg.Exec := Pkg.ExitError 1.


Definition javaRejected : option error * Appstate.State * Pkg.Run :=
  Pkg.javaApply "release" storage ∅ downloadZip zipJre noTar crashes java21 withJre run0.

End Samples.

(* ================================================================== *)
(** * Properties *)
(* ================================================================== *)

Example sha_abc :
  Hex.EncodeToString (Sha256.Sum256 (bytes_of_string "abc"))
  = "ba7816bf8f01cfea414140de5dae2223b00361a396177a9cb410ff61f20015ad"%string.
Proof. vm_compute. reflexivity. Qed.

Example hmac_rfc4231_2 :
  Crypto.HMAC (bytes_of_string "what do ya want for nothing?") (bytes_of_string "Jefe")
  = "5bdcc146bf60754e6a042426089575c75a003f089d2739839dec58b964ec3843"%string.
Proof. vm_compute. reflexivity. Qed.

(** ** Channel state store *)

Section SetDependency.
Variables (identifier cause : string) (d : Appstate.Dep) (s : Appstate.State).

Lemma SetDependency_lookup :
  Appstate.GetDeps identifier (Appstate.SetDependency identifier cause (Some d) s)
  = Some (<[Appstate.Version d := d]> (default ∅ (Appstate.GetDeps identifier s))).
Proof.
  unfold Appstate.GetDeps, Appstate.getDeps, Appstate.SetDependency; simpl.
  rewrite lookup_insert_eq.
  unfold Appstate.getDeps. by destruct (Appstate.Dependencies s !! identifier).
Qed.

Lemma SetDependency_other (other : string) :
  other ≠ identifier ->
  Appstate.GetDeps other (Appstate.SetDependency identifier cause (Some d) s)
  = Appstate.GetDeps other s.
Proof.
  intros Hne. unfold Appstate.GetDeps, Appstate.getDeps, Appstate.SetDependency; simpl.
  by rewrite lookup_insert_ne.
Qed.
End SetDependency.

(** C2 (as the claim states it, refuted): with "0.40.0" installed for
    "game", [SetDependency] of version "0.42.0" leaves the entry of
    "0.40.0" in the inner map, which is therefore not the singleton of the
    new dependency. *)
Lemma SetDependency_keeps_other_versions :
  exists deps,
    Appstate.GetDeps "game"
      (Appstate.SetDependency "game" "update" (Some (Samples.dep "0.42.0" 42)) Samples.release40)
    = Some deps
    /\ deps !! "0.40.0"%string = Some (Samples.dep "0.40.0" 40)
    /\ deps <> {[ "0.42.0"%string := Samples.dep "0.42.0" 42 ]}.
Proof.
  eexists. split; [apply (SetDependency_lookup "game" "update")|].
  split; [reflexivity|].
  intros Heq.
  assert (H : (<[ "0.42.0"%string := Samples.dep "0.42.0" 42 ]>
                 (default ∅ (Appstate.GetDeps "game" Samples.release40)))
              !! "0.40.0"%string = Some (Samples.dep "0.40.0" 40)) by reflexivity.
  simpl in Heq. rewrite Heq in H. discriminate H.
Qed.

(** C2 (amended): after [SetDependency p c d] with a non-nil [d], the
    inner map of [p] is the previous inner map (empty when there was
    none) with [d] added or overwritten under [d.Version]: [d] is there,
    every entry of another version is exactly as before, and the maps of
    the other packages are untouched. *)
Theorem SetDependency_adds_or_updates
    (s : Appstate.State) (p c : string) (d : Appstate.Dep) :
  let s' := Appstate.SetDependency p c (Some d) s in
  Appstate.GetDeps p s'
  = Some (<[Appstate.Version d := d]> (default ∅ (Appstate.GetDeps p s)))
  /\ (Appstate.GetDeps p s' ≫= (.!! Appstate.Version d)) = Some d
  /\ (forall v, v <> Appstate.Version d ->
        (Appstate.GetDeps p s' ≫= (.!! v)) = (Appstate.GetDeps p s ≫= (.!! v)))
  /\ (forall q, q <> p -> Appstate.GetDeps q s' = Appstate.GetDeps q s).
Proof.
  intros s'. subst s'. rewrite SetDependency_lookup. simpl.
  repeat split.
  - apply lookup_insert_eq.
  - intros v Hv. rewrite lookup_insert_ne by congruence.
    unfold Appstate.GetDeps, Appstate.getDeps.
    destruct (Appstate.Dependencies s !! p); simpl; [done | apply lookup_empty].
  - intros q Hq. exact (SetDependency_other p c d s q Hq).
Qed.

(** ** Self-update validation *)

Lemma prefix_app_l (a b p : string) :
  String.prefix (a ++ b) p = true -> String.prefix a p = true.
Proof.
  revert p. induction a as [|c a IH]; intros p H.
  - destruct p; reflexivity.
  - destruct p as [|c' p]; simpl in *; [discriminate H|].
    destruct (ascii_dec c c'); [by apply IH | discriminate H].
Qed.

Lemma prefix_refl (p : string) : String.prefix p p = true.
Proof.
  induction p as [|c p IH]; simpl; [reflexivity|].
  destruct (ascii_dec c c); [exact IH | congruence].
Qed.

(** Whatever is inside the temp directory starts with its characters:
    the check of the source rejects nothing the claim wants accepted. *)
Lemma inside_dir_HasPrefix (dir p : string) :
  inside_dir dir p = true -> Strings.HasPrefix p dir = true.
Proof.
  unfold inside_dir, Strings.HasPrefix. intros H.
  apply orb_true_iff in H as [H | H].
  - apply String.eqb_eq in H. subst p. apply prefix_refl.
  - by apply prefix_app_l in H.
Qed.

(** C7 (as the claim states it, refuted): [validate] accepts a source
    and a destination that only share the characters "/tmp" with the temp
    directory and are not inside it, when the signature is the HMAC of
    the destination path. *)
Lemma validate_accepts_lookalike_paths :
  Selfupdate.validate Samples.lookalike Samples.key = None
  /\ inside_dir "/tmp" (Selfupdate.SourceBin Samples.lookalike) = false
  /\ inside_dir "/tmp" (Selfupdate.TargetBin Samples.lookalike) = false.
Proof. vm_compute. repeat split; reflexivity. Qed.

(** C7 (amended): [validate] returns success exactly when the signature
    equals the hex HMAC-SHA256 of the destination path bytes under the
    key and both paths start with the characters "/tmp"; a wrong
    signature is an error whatever the paths are, and a path that does
    not start with "/tmp" is an error whatever the signature is. *)
Theorem validate_accepts_iff (v : Selfupdate.Vars) (key : list Z) :
  Selfupdate.validate v key = None
  <-> (Selfupdate.UpdateSignature v
         = Crypto.HMAC (bytes_of_string (Selfupdate.TargetBin v)) key
       /\ Strings.HasPrefix (Selfupdate.SourceBin v) "/tmp" = true
       /\ Strings.HasPrefix (Selfupdate.TargetBin v) "/tmp" = true).
Proof.
  unfold Selfupdate.validate.
  destruct (String.eqb_spec (Crypto.HMAC (bytes_of_string (Selfupdate.TargetBin v)) key)
              (Selfupdate.UpdateSignature v)) as [Heq | Hne]; simpl.
  - destruct (Strings.HasPrefix (Selfupdate.SourceBin v) "/tmp");
      destruct (Strings.HasPrefix (Selfupdate.TargetBin v) "/tmp"); simpl;
      split; intros H; try discriminate H; try (destruct H as (_ & ? & ?); discriminate);
      auto.
  - split; [discriminate | intros (H & _); congruence].
Qed.

(** ** Self-update handoff *)

(** Whenever [selfUpdate] hands over to the helper, the [-sig] argument
    is the HMAC of the decimal process id under the keyring entry
    [selfUpdateKeyID]; the destination path does not enter it. *)
Lemma selfUpdate_signs_pid Release executable pid RunElevated u newBinaryPath r code r' :
  Pkg.selfUpdate Release executable pid RunElevated u newBinaryPath r = (Pkg.Exited code, r') ->
  exists key currentExe kr,
    Keyring.GetOrGenKey Crypto.selfUpdateKeyID (Pkg.keyring r) = (Ok key, kr)
    /\ executable = Ok currentExe
    /\ Pkg.spawned r' = Pkg.spawned r ++
         [(newBinaryPath,
           Pkg.helperArgs Release u newBinaryPath currentExe (Strconv.FormatInt pid)
             (Crypto.HMAC (bytes_of_string (Strconv.FormatInt pid)) key))].
Proof.
  unfold Pkg.selfUpdate, Pkg.LoadSelfUpdateKey.
  destruct (Keyring.GetOrGenKey Crypto.selfUpdateKeyID (Pkg.keyring r)) as [[key | e] kr];
    [| discriminate].
  destruct executable as [currentExe | e]; [| discriminate].
  destruct (RunElevated _ _); [discriminate |].
  intros H. injection H as _ <-. by exists key, currentExe, kr.
Qed.

(** C1 (the code at the failing input): process 4242 hands over with
    destination [/tmp/hytale/hytale-launcher]. The helper is spawned with
    a [-sig] that is the HMAC of "4242", which is not the HMAC of the
    destination path under the same key, and the helper's gate rejects
    the handoff with "invalid update signature". *)
Theorem handoff_signature_rejected :
  exists r' args,
    Samples.handoff = (Pkg.Exited 0, r')
    /\ Pkg.spawned r' = [(Samples.newBinary, args)]
    /\ Selfupdate.flag "-dest-exe" args = Samples.currentExe
    /\ Selfupdate.flag "-sig" args = Crypto.HMAC (bytes_of_string "4242") Samples.key
    /\ Selfupdate.flag "-sig" args
       <> Crypto.HMAC (bytes_of_string Samples.currentExe) Samples.key
    /\ Selfupdate.validate (Selfupdate.parseFlags args) Samples.key
       = Some "invalid update signature"%string
    /\ Selfupdate.Do_gate (Selfupdate.parseFlags args) (Pkg.keyring r')
       = Selfupdate.Rejected "invalid update signature".
Proof.
  eexists _, _. split; [vm_compute; reflexivity|].
  split; [reflexivity|].
  vm_compute. repeat split; try reflexivity. discriminate.
Qed.

(** ** Download reporter *)

Section Reporter.
Variables (statusKey : string) (data : gmap string string).
Variables (totalBytes : Z) (progressScale progressOffset : float).

(** One update is reported exactly when it is due. *)
Lemma reporter_step (st : Download.Throttle) (bytesDownloaded speed : Z) :
  (exists r,
      snd (Download.ReporterWithTotal statusKey data totalBytes progressScale progressOffset
             st bytesDownloaded speed) = Some r)
  <-> Download.report_due st
        (Download.finalProgress totalBytes progressScale progressOffset bytesDownloaded) speed.
Proof using Type.
  unfold Download.ReporterWithTotal, Download.report_due, Download.shouldReportProgress.
  set (f := Download.finalProgress _ _ _ _).
  destruct (PrimFloat.ltb f 0.01) eqn:E1; simpl.
  { split; [auto | eauto]. }
  destruct (PrimFloat.leb 0.99 f) eqn:E2; simpl.
  { split; [auto | eauto]. }
  destruct (PrimFloat.leb 0.01 (f - Download.lastProgress st)) eqn:E3; simpl.
  { split; [auto | eauto]. }
  destruct (Z.eqb_spec speed (Download.lastSpeed st)) as [Heq | Hne]; simpl.
  - split; [intros [r Hr]; discriminate Hr |].
    intros [H | [H | [H | H]]]; try discriminate H. contradiction.
  - split; [auto | eauto].
Qed.
End Reporter.

(** With no total (0), scale 1 and offset 0 the progress of every update
    is 0, which is below 0.01: every update is reported. *)
Lemma reporter_unknown_total_reports_all statusKey data (st : Download.Throttle)
    (updates : list (Z * Z)) :
  length (Download.feed (Download.ReporterWithTotal statusKey data 0 1 0) st updates)
  = length updates.
Proof.
  revert st. induction updates as [| [b v] updates IH]; intros st; [reflexivity|].
  simpl. unfold Download.ReporterWithTotal at 1.
  replace (Download.finalProgress 0 1 0 b) with 0%float by reflexivity.
  replace (Download.shouldReportProgress (Download.lastProgress st) 0) with true
    by reflexivity.
  simpl. by rewrite IH.
Qed.

(** C6 (as the claim states it, refuted): a download of 10^9 bytes read
    in chunks of 32 KiB at a steady speed. Its first 200 raw updates stay
    below 1% of the total and each of them is reported: 200 callbacks,
    more than 105. *)
Lemma reporter_exceeds_105 :
  length (Download.feed (Download.ReporterWithTotal "downloading" ∅ (10 ^ 9) 1 0)
            Download.fresh (Download.steady 32768 1000 200)) = 200%nat
  /\ (105 < length (Download.feed (Download.ReporterWithTotal "downloading" ∅ (10 ^ 9) 1 0)
                      Download.fresh (Download.steady 32768 1000 200)))%nat.
Proof.
  assert (H : length (Download.feed (Download.ReporterWithTotal "downloading" ∅ (10 ^ 9) 1 0)
                        Download.fresh (Download.steady 32768 1000 200)) = 200%nat)
    by (vm_compute; reflexivity).
  rewrite H. split; [reflexivity | lia].
Qed.

(** C6 (amended): the reporter invokes its callback for an update
    exactly when the scaled progress is below 0.01, or is at or above
    0.99, or exceeds the last reported progress by at least 0.01, or the
    speed differs from the last reported one. The number of callbacks is
    not bounded independently of the number of updates: a reporter with
    no known total, scale 1 and offset 0 reports every one of them. *)
Theorem reporter_reports_iff_due :
  (forall statusKey data totalBytes progressScale progressOffset st bytesDownloaded speed,
      (exists r,
          snd (Download.ReporterWithTotal statusKey data totalBytes progressScale
                 progressOffset st bytesDownloaded speed) = Some r)
      <-> Download.report_due st
            (Download.finalProgress totalBytes progressScale progressOffset bytesDownloaded)
            speed)
  /\ (forall statusKey data updates,
        length (Download.feed (Download.ReporterWithTotal statusKey data 0 1 0)
                  Download.fresh updates) = length updates).
Proof.
  split.
  - intros. apply reporter_step.
  - intros. apply reporter_unknown_total_reports_all.
Qed.

(** ** Offline mode *)

Section Offline.
Variables (Domain Release GOOS GOARCH : string) (environ : gmap string string).
Variable manifests : Ioutil.Request -> result Verget.Manifest.
Variable accounts : Ioutil.Request -> result Account.launcherData.
Variable now : Z.

Lemma GetManifest_offline channel component (w : Ioutil.Wire) :
  Ioutil.mode w = Net.ModeOffline ->
  Verget.GetManifest Domain manifests channel component w = (Err Net.ErrOffline, w).
Proof using Type. intros H. unfold Verget.GetManifest. by rewrite H. Qed.

Lemma Refresh_offline (a : Account.Account) client cause (w : Ioutil.Wire) :
  Ioutil.mode w = Net.ModeOffline ->
  Account.Refresh Domain Release GOOS GOARCH environ accounts now a client cause w
  = (Some Net.ErrOffline, a, w).
Proof using Type. intros H. unfold Account.Refresh. by rewrite H. Qed.
End Offline.

(** C8: in mode Offline, [GetManifest] and [Account.Refresh] return the
    offline sentinel whatever the servers would answer; the requests
    sent stay as they were (no HTTP request is issued) and the account is
    untouched, the mode check being the first step of both. *)
Theorem offline_fails_before_fetch
    (Domain Release GOOS GOARCH : string) (environ : gmap string string)
    (manifests : Ioutil.Request -> result Verget.Manifest)
    (accounts : Ioutil.Request -> result Account.launcherData)
    (now : Z) (channel component cause : string) (client : option string)
    (a : Account.Account) (w : Ioutil.Wire) :
  Ioutil.mode w = Net.ModeOffline ->
  Verget.GetManifest Domain manifests channel component w = (Err Net.ErrOffline, w)
  /\ Account.Refresh Domain Release GOOS GOARCH environ accounts now a client cause w
     = (Some Net.ErrOffline, a, w).
Proof.
  intros H. split; [by apply GetManifest_offline | by apply Refresh_offline].
Qed.

(** ** Account refresh *)

Section Refresh.
Variables (Domain Release GOOS GOARCH : string) (environ : gmap string string).
Variable server : Ioutil.Request -> result Account.launcherData.
Variable now : Z.

(** [Refresh] changes the account only in mode Online, on an answer of
    the server that holds at least one profile. *)
Lemma Refresh_changes_only_with_profiles
    (a : Account.Account) (client : option string) (cause : string) (w : Ioutil.Wire) :
  snd (fst (Account.Refresh Domain Release GOOS GOARCH environ server now a client cause w)) <> a ->
  Ioutil.mode w = Net.ModeOnline
  /\ exists data,
       server (Ioutil.mkRequest client (Endpoints.LauncherData Domain)
                 [("os", Build.OS Release GOOS environ);
                  ("arch", Build.Arch Release GOARCH environ)]%string) = Ok data
       /\ Account.d_Profiles data <> [].
Proof using Type.
  unfold Account.Refresh, Ioutil.Get.
  destruct (Ioutil.mode w); simpl; [| intros H; by destruct H].
  destruct (server _) as [data | e]; simpl; [| intros H; by destruct H].
  destruct (Account.d_Profiles data) eqn:E; simpl; [intros H; by destruct H |].
  intros _. split; [done |]. exists data. rewrite E. split; [done | discriminate].
Qed.
End Refresh.

(** C10: when the server answers with an empty profile list, [Refresh]
    returns nil and the account is unchanged (its Profiles, Patchlines,
    EULAAcceptedAt and LastRefresh with it); the account is changed by a
    [Refresh] only when the server answered with at least one profile. *)
Theorem Refresh_without_profiles_keeps_account
    (Domain Release GOOS GOARCH : string) (environ : gmap string string)
    (server : Ioutil.Request -> result Account.launcherData) (now : Z)
    (a : Account.Account) (client : option string) (cause : string) (w : Ioutil.Wire)
    (data : Account.launcherData) :
  let req := Ioutil.mkRequest client (Endpoints.LauncherData Domain)
               [("os", Build.OS Release GOOS environ);
                ("arch", Build.Arch Release GOARCH environ)]%string in
  Ioutil.mode w = Net.ModeOnline ->
  server req = Ok data ->
  Account.d_Profiles data = [] ->
  Account.Refresh Domain Release GOOS GOARCH environ server now a client cause w
  = (None, a, {| Ioutil.mode := Ioutil.mode w; Ioutil.sent := Ioutil.sent w ++ [req] |})
  /\ (forall a0 client0 cause0 w0,
        snd (fst (Account.Refresh Domain Release GOOS GOARCH environ server now
                    a0 client0 cause0 w0)) <> a0 ->
        exists data0,
          server (Ioutil.mkRequest client0 (Endpoints.LauncherData Domain)
                    [("os", Build.OS Release GOOS environ);
                     ("arch", Build.Arch Release GOARCH environ)]%string) = Ok data0
          /\ Account.d_Profiles data0 <> []).
Proof.
  intros req Hmode Hresp Hnil. split.
  - unfold Account.Refresh, Ioutil.Get. rewrite Hmode. simpl. fold req.
    rewrite Hresp, Hnil. reflexivity.
  - intros a0 client0 cause0 w0 Hchanged.
    by destruct (Refresh_changes_only_with_profiles _ _ _ _ _ _ _ _ _ _ _ Hchanged).
Qed.

Lemma Refresh_without_profiles_keeps_account_witness :
  Account.Refresh "hytale.com" "release" "linux" "amd64" ∅ Samples.accountServer 1700003600%Z
    Samples.account (Some "at"%string) "startup" Samples.online
  = (None, Samples.account,
     {| Ioutil.mode := Net.ModeOnline;
        Ioutil.sent := [Ioutil.mkRequest (Some "at"%string)
                          "https://account-data.hytale.com/launcher-data"
                          [("os", "linux"); ("arch", "amd64")]%string] |}).
Proof.
  apply (Refresh_without_profiles_keeps_account "hytale.com" "release" "linux" "amd64" ∅
           Samples.accountServer 1700003600%Z Samples.account (Some "at"%string) "startup"
           Samples.online Samples.noProfiles); reflexivity.
Defined.

Lemma offline_fails_before_fetch_witness :
  Verget.GetManifest "hytale.com" Samples.versionServer "release" "launcher" Samples.offline
  = (Err Net.ErrOffline, Samples.offline)
  /\ Account.Refresh "hytale.com" "release" "linux" "amd64" ∅ Samples.accountServer 1700003600%Z
       Samples.account (Some "at"%string) "startup" Samples.offline
     = (Some Net.ErrOffline, Samples.account, Samples.offline).
Proof.
  apply (offline_fails_before_fetch "hytale.com" "release" "linux" "amd64" ∅
           Samples.versionServer Samples.accountServer 1700003600%Z "release" "launcher"
           "startup" (Some "at"%string) Samples.account Samples.offline).
  reflexivity.
Defined.

(** ** OAuth callback *)

(** C9: when no attempt is in progress, or the state parameter of the
    request differs from the state stored for the attempt, the handler
    answers with [http.Error] and status 400 before anything else, starts
    no token exchange and sends no result that carries a token. *)
Theorem handleCallback_rejects_wrong_state
    (l : Oauth.Loopback) (query : gmap string (list string)) :
  (Oauth.state l = None
   \/ exists st, Oauth.state l = Some st /\ Oauth.Get query "state" <> Oauth.State st) ->
  (exists msg rest, Oauth.handleCallback l query = Oauth.HttpError msg 400%Z :: rest)
  /\ ~ Oauth.starts_exchange (Oauth.handleCallback l query)
  /\ ~ Oauth.delivers_token (Oauth.handleCallback l query).
Proof.
  intros H.
  assert (Hrun :
    Oauth.handleCallback l query = [Oauth.HttpError "No login in progress" 400%Z]
    \/ Oauth.handleCallback l query
       = [Oauth.HttpError "Invalid state parameter" 400%Z;
          Oauth.Send {| Oauth.r_Token := None;
                        Oauth.r_Err := Some "invalid state parameter"%string |}]).
  { unfold Oauth.handleCallback. destruct H as [-> | (st & -> & Hne)]; [by left | right].
    destruct (String.eqb_spec (Oauth.Get query "state") (Oauth.State st)); [contradiction | done]. }
  unfold Oauth.starts_exchange, Oauth.delivers_token.
  destruct Hrun as [-> | ->]; (split; [eauto |]); split.
  - intros (code & [Hin | []]). discriminate Hin.
  - intros (tok & err & [Hin | []]). discriminate Hin.
  - intros (code & [Hin | [Hin | []]]); discriminate Hin.
  - intros (tok & err & [Hin | [Hin | []]]); discriminate Hin.
Qed.

Lemma handleCallback_rejects_wrong_state_witness :
  (exists msg rest,
      Oauth.handleCallback Samples.loopback Samples.forged = Oauth.HttpError msg 400%Z :: rest)
  /\ ~ Oauth.starts_exchange (Oauth.handleCallback Samples.loopback Samples.forged)
  /\ ~ Oauth.delivers_token (Oauth.handleCallback Samples.loopback Samples.forged).
Proof.
  apply (handleCallback_rejects_wrong_state Samples.loopback Samples.forged).
  right. eexists. split; [reflexivity | vm_compute; discriminate].
Defined.

(** ** Update coordinator *)

Section Coordinator.
Variables (Release Version : string) (BuildNumber : Z) (Domain : string).
Variable server : Ioutil.Request -> result Verget.Manifest.

(** The launcher check works on the launcher getter and the network
    only, and sends at most the request of the launcher manifest. *)
Lemma CheckForLauncherUpdate_frame (p p1 : Pkg.Process) res :
  Pkg.CheckForLauncherUpdate Release Version BuildNumber Domain server p = (res, p1) ->
  Pkg.gameManifest p1 = Pkg.gameManifest p
  /\ Pkg.javaManifest p1 = Pkg.javaManifest p
  /\ (Ioutil.sent (Pkg.wire p1) = Ioutil.sent (Pkg.wire p)
      \/ Ioutil.sent (Pkg.wire p1)
         = Ioutil.sent (Pkg.wire p)
           ++ [Ioutil.mkRequest None
                 (Endpoints.LauncherVersion Domain Release
                    (Verget.component (Pkg.launcherManifest p))) []]).
Proof using Type.
  unfold Pkg.CheckForLauncherUpdate, Verget.Get, Verget.GetManifest, Ioutil.Get.
  destruct (Verget.cache (Pkg.launcherManifest p)) as [c |].
  - destruct (Verget.c_Build c <=? BuildNumber)%Z; intros [= _ <-]; simpl; auto.
  - destruct (Net.OfflineError _); [intros [= _ <-]; simpl; auto |].
    destruct (server _) as [m | e]; simpl.
    + destruct (0 <=? BuildNumber)%Z; intros [= _ <-]; simpl; auto.
    + intros [= _ <-]; simpl; auto.
Qed.
End Coordinator.

(** C5: when the launcher check yields an update, [CheckAllUpdates]
    returns the list that holds this update and nothing else, and the
    process is left as the launcher check left it: the JRE and game
    getters are as before the call and no request went out besides, at
    most, the one for the launcher manifest. *)
Theorem CheckAllUpdates_launcher_only
    (Release Version : string) (BuildNumber : Z) (Domain : string)
    (server : Ioutil.Request -> result Verget.Manifest)
    (state : Appstate.State) (auth : Pkg.Auth) (channel : string)
    (p p1 : Pkg.Process) (u : Pkg.Update) :
  Pkg.CheckForLauncherUpdate Release Version BuildNumber Domain server p = (Ok (Some u), p1) ->
  Pkg.CheckAllUpdates Release Version BuildNumber Domain server state auth channel p
  = (Ok [u], p1)
  /\ Pkg.javaManifest p1 = Pkg.javaManifest p
  /\ Pkg.gameManifest p1 = Pkg.gameManifest p
  /\ (Ioutil.sent (Pkg.wire p1) = Ioutil.sent (Pkg.wire p)
      \/ Ioutil.sent (Pkg.wire p1)
         = Ioutil.sent (Pkg.wire p)
           ++ [Ioutil.mkRequest None
                 (Endpoints.LauncherVersion Domain Release
                    (Verget.component (Pkg.launcherManifest p))) []]).
Proof.
  intros H.
  destruct (CheckForLauncherUpdate_frame _ _ _ _ _ _ _ _ H) as (Hg & Hj & Hs).
  unfold Pkg.CheckAllUpdates. rewrite H. simpl. auto.
Qed.

Lemma CheckAllUpdates_launcher_only_witness :
  Pkg.CheckAllUpdates "release" "1.0.99" 99 "hytale.com" Samples.versionServer
    Samples.release40 Samples.auth "release" Samples.process
  = (Ok [Pkg.Launcher
           {| Pkg.lu_Channel := "release"; Pkg.lu_CurrentVersion := "1.0.99";
              Pkg.lu_CurrentBuild := 99; Pkg.lu_TargetVersion := "1.0.100";
              Pkg.lu_TargetBuild := 100;
              Pkg.lu_DownloadURL := "https://launcher.hytale.com/dl";
              Pkg.lu_Hash := ""; Pkg.lu_Size := 0 |}],
     Samples.process).
Proof.
  apply (CheckAllUpdates_launcher_only "release" "1.0.99" 99 "hytale.com"
           Samples.versionServer Samples.release40 Samples.auth "release"
           Samples.process Samples.process).
  reflexivity.
Defined.

(** ** Game update: the commit phase *)

Lemma Remove_keeps_missing (path q : string) (d : Os.Disk) :
  Os.files d !! q = None -> Os.files (snd (Os.Remove path d)) !! q = None.
Proof.
  intros H. unfold Os.Remove. destruct (Os.files d !! path); simpl; [| done].
  rewrite lookup_delete. by case_decide.
Qed.

Lemma Remove_gone (path : string) (d : Os.Disk) :
  Os.files (snd (Os.Remove path d)) !! path = None.
Proof.
  unfold Os.Remove. destruct (Os.files d !! path) eqn:E; simpl; [| done].
  apply lookup_delete_eq.
Qed.

Lemma deletePatch_keeps_missing (p : Pkg.gamePatch) (q : string) (d : Os.Disk) :
  Os.files d !! q = None -> Os.files (Pkg.deletePatch d p) !! q = None.
Proof.
  intros H. unfold Pkg.deletePatch.
  destruct (String.eqb (Pkg.patchPath p) ""), (String.eqb (Pkg.sigPath p) "");
    auto using Remove_keeps_missing.
Qed.

Lemma deletePatch_sig_gone (p : Pkg.gamePatch) (d : Os.Disk) :
  Pkg.sigPath p <> ""%string -> Os.files (Pkg.deletePatch d p) !! Pkg.sigPath p = None.
Proof.
  intros H. unfold Pkg.deletePatch.
  destruct (String.eqb_spec (Pkg.sigPath p) ""); [contradiction |].
  apply Remove_gone.
Qed.

Lemma deletePatchFiles_keeps_missing (steps : list Pkg.gamePatch) (q : string) (d : Os.Disk) :
  Os.files d !! q = None -> Os.files (Pkg.deletePatchFiles steps d) !! q = None.
Proof.
  unfold Pkg.deletePatchFiles. revert d.
  induction steps as [| p steps IH]; intros d H; simpl; [done |].
  by apply IH, deletePatch_keeps_missing.
Qed.

(** After [deletePatchFiles] the signature file of every step is gone. *)
Lemma deletePatchFiles_sig_gone (steps : list Pkg.gamePatch) (p : Pkg.gamePatch) (d : Os.Disk) :
  In p steps -> Pkg.sigPath p <> ""%string ->
  Os.files (Pkg.deletePatchFiles steps d) !! Pkg.sigPath p = None.
Proof.
  unfold Pkg.deletePatchFiles. revert d.
  induction steps as [| p0 steps IH]; intros d Hin Hne; [destruct Hin |].
  simpl. destruct Hin as [-> | Hin].
  - apply (deletePatchFiles_keeps_missing steps). by apply deletePatch_sig_gone.
  - by apply IH.
Qed.

Lemma last_In {A} (l : list A) (x : A) : last l = Some x -> In x l.
Proof.
  induction l as [| a l IH]; [discriminate |].
  destruct l as [| b l]; simpl in *.
  - intros [= ->]. by left.
  - intros H. right. by apply IH.
Qed.

(** In the order of the source the commit phase never saves a
    signature: once the patch files are removed the rename finds no
    file, and the disk stays as the cleanup left it. *)
Lemma saveSig_after_cleanup (steps : list Pkg.gamePatch) (gameDir : string) (d : Os.Disk) :
  snd (Pkg.saveSig steps gameDir (Pkg.deletePatchFiles steps d))
  = Pkg.deletePatchFiles steps d.
Proof.
  unfold Pkg.saveSig. destruct (last steps) as [p |] eqn:Hlast; [| done].
  destruct (String.eqb_spec (Pkg.sigPath p) ""); [done |].
  unfold Os.Rename. rewrite deletePatchFiles_sig_gone; auto using last_In.
Qed.

Section GameApply.
Variables (storage : string) (environ : gmap string string) (ctx : nat -> option error).
Variable DownloadTemp : string -> string -> string -> Os.Disk -> result string * Os.Disk.
Variable MkdirTemp : string -> string -> Os.Disk -> result string * Os.Disk.
Variable applyWharf :
  string -> string -> string -> string -> Os.Disk -> option error * list float * Os.Disk.
Variable validateWharf : string -> string -> Os.Disk -> option error * list float.

(** The apply loop leaves the steps as they are. *)
Lemma applyLoop_steps all gameDir i rest r steps r' :
  Pkg.applyLoop environ ctx MkdirTemp applyWharf validateWharf all gameDir i rest r
  = Pkg.Completed steps r' ->
  steps = all.
Proof using Type.
  revert i r. induction rest as [| p rest IH]; intros i r; simpl.
  - by intros [= <- _].
  - destruct (ctx (Pkg.polls r)); [discriminate |].
    destruct (Pkg.apply _ _ _ _ _ _) as [[e |] rb]; [discriminate |].
    destruct (Pkg.validate _ _ _ _) as [[e |] rc]; [discriminate |].
    apply IH.
Qed.

(** A successful [Apply] went through both loops and the commit. *)
Lemma gameApply_success u state r steps state' r' :
  Pkg.gameApply storage environ ctx DownloadTemp MkdirTemp applyWharf validateWharf u state r
  = (None, steps, state', r') ->
  exists r1 r2,
    Pkg.downloadLoop storage ctx DownloadTemp (length (Pkg.Patches u)) [] (Pkg.Patches u) r
    = Pkg.Completed steps r1
    /\ Pkg.applyLoop environ ctx MkdirTemp applyWharf validateWharf steps
         (Pkg.PackageDir storage "game" (Pkg.gu_Channel u) "latest") 0 steps r1
       = Pkg.Completed steps r2
    /\ (state', r')
       = Pkg.commit u steps (Pkg.PackageDir storage "game" (Pkg.gu_Channel u) "latest") state r2.
Proof using Type.
  unfold Pkg.gameApply, Pkg.fallback. intros H.
  destruct (Pkg.downloadLoop _ _ _ _ _ _ _) as [steps1 r1 | |] eqn:Hdown;
    [| discriminate H ..].
  destruct (Pkg.applyLoop _ _ _ _ _ _ _ _ _ _) as [steps2 r2 | |] eqn:Happly;
    [| discriminate H ..].
  pose proof (applyLoop_steps _ _ _ _ _ _ _ Happly) as ->.
  destruct (Pkg.commit _ _ _ _ _) as [st rr] eqn:Hc.
  injection H as <- <- <-. by exists r1, r2.
Qed.

(** After a successful [Apply], the dependencies of "game" are those
    the state had, with the target version added or overwritten. *)
Lemma gameApply_success_deps u state r steps state' r' :
  Pkg.gameApply storage environ ctx DownloadTemp MkdirTemp applyWharf validateWharf u state r
  = (None, steps, state', r') ->
  state' = Appstate.SetDependency "game" "update"
             (Some {| Appstate.Version := Pkg.gu_Version u;
                      Appstate.Build := Pkg.gu_TargetBuild u;
                      Appstate.BuildID := 0; Appstate.Hash := ""; Appstate.Path := "";
                      Appstate.SigDir := ""; Appstate.SigFile := "" |}) state.
Proof using Type.
  intros H. apply gameApply_success in H as (r1 & r2 & _ & _ & Hc).
  unfold Pkg.commit, Pkg.demoteOldVersions in Hc. by injection Hc as -> _.
Qed.

(** After a successful [Apply], the disk is what the patch tool left,
    less the downloaded files: the final signature was removed with
    them and [.signature] was not written. *)
Lemma gameApply_success_disk u state r steps state' r' :
  Pkg.gameApply storage environ ctx DownloadTemp MkdirTemp applyWharf validateWharf u state r
  = (None, steps, state', r') ->
  exists r2,
    Pkg.disk r' = Pkg.deletePatchFiles steps (Pkg.disk r2)
    /\ forall p, last steps = Some p -> Pkg.sigPath p <> ""%string ->
         Os.files (Pkg.disk r') !! Pkg.sigPath p = None.
Proof using Type.
  intros H. apply gameApply_success in H as (r1 & r2 & _ & _ & Hc).
  unfold Pkg.commit in Hc. injection Hc as _ ->. simpl.
  rewrite saveSig_after_cleanup. exists r2. split; [done |].
  intros p Hlast Hne. apply deletePatchFiles_sig_gone; auto using last_In.
Qed.
End GameApply.

(** C3 (the code at the failing input): the update from build 40 to
    build 42 in two steps. The download phase leaves the signature of the
    last step in the cache with the bytes the server sent; [Apply] returns
    nil; after it there is no file [<game_dir>/.signature], and the
    downloaded signature is gone: the cleanup of the scratch files ran
    before the move, which then found nothing to move. *)
Theorem gameApply_loses_final_signature :
  Samples.downloadedSig = Some (Samples.body "https://patches.hytale.com/41-42.sig")
  /\ Samples.appliedErr = None
  /\ Pkg.sigPath <$> last Samples.appliedSteps
     = Some "/home/u/.local/share/hytale/cache/download-3"%string
  /\ Pkg.PackageDir Samples.storage "game" "release" "latest" = Samples.gameDir
  /\ Os.files (Pkg.disk Samples.appliedRun) !! Filepath.Join Samples.gameDir ".signature" = None
  /\ Os.files (Pkg.disk Samples.appliedRun)
       !! "/home/u/.local/share/hytale/cache/download-3"%string = None.
Proof.
  split; [vm_compute; reflexivity |].
  split; [vm_compute; reflexivity |].
  split; [vm_compute; reflexivity |].
  split; [reflexivity |].
  split; vm_compute; reflexivity.
Qed.

(** C4 (the code at the failing input): the same update applied to a
    channel whose state holds game version "0.40.0". [Apply] returns nil
    and the dependencies of "game" hold two entries afterwards, the old
    version "0.40.0" and the target "0.42.0". *)
Theorem gameApply_keeps_old_version :
  Samples.appliedErr = None
  /\ size <$> Appstate.GetDeps "game" Samples.appliedState = Some 2%nat
  /\ (Appstate.GetDeps "game" Samples.appliedState ≫= (.!! "0.40.0"%string))
     = Some (Samples.dep "0.40.0" 40)
  /\ (Appstate.GetDeps "game" Samples.appliedState ≫= (.!! "0.42.0"%string))
     = Some (Samples.dep "0.42.0" 42).
Proof.
  split; [vm_compute; reflexivity |].
  split; [vm_compute; reflexivity |].
  split; vm_compute; reflexivity.
Qed.

(* ================================================================== *)
(** * Further properties of the code *)
(* ================================================================== *)

(** ** Channel state store: removal, invariant, round trips *)

Lemma State_eq (s : Appstate.State) deps :
  deps = Appstate.Dependencies s -> Appstate.set_Dependencies deps s = s.
Proof. intros ->. by destruct s. Qed.

(** X1: after [RemoveDependency p v] the version [v] is not recorded
    under [p], the other versions under [p] and the other packages are as
    before, and [p] is not left with an empty map: the entry of [p] goes
    with its last version. *)
Theorem RemoveDependency_removes (s : Appstate.State) (p v : string) :
  let s' := Appstate.RemoveDependency p v s in
  (Appstate.GetDeps p s' ≫= (.!! v)) = None
  /\ (forall v', v' <> v ->
        (Appstate.GetDeps p s' ≫= (.!! v')) = (Appstate.GetDeps p s ≫= (.!! v')))
  /\ (forall q, q <> p -> Appstate.GetDeps q s' = Appstate.GetDeps q s)
  /\ (Appstate.GetDeps p s <> Some ∅ -> Appstate.GetDeps p s' <> Some ∅).
Proof.
  intros s'. subst s'.
  unfold Appstate.RemoveDependency, Appstate.GetDeps, Appstate.getDeps.
  destruct (Appstate.Dependencies s !! p) as [deps |] eqn:E; simpl.
  2: { rewrite E. simpl. repeat split; auto. }
  case_decide as Hsize; simpl.
  - rewrite lookup_delete_eq. simpl. repeat split; [| | discriminate].
    + intros v' Hv'. apply map_size_empty_iff in Hsize.
      assert (H : delete v deps !! v' = None) by (rewrite Hsize; apply lookup_empty).
      rewrite lookup_delete_ne in H by congruence. by rewrite H.
    + intros q Hq. by rewrite lookup_delete_ne.
  - rewrite lookup_insert_eq. simpl. repeat split.
    + apply lookup_delete_eq.
    + intros v' Hv'. by rewrite lookup_delete_ne.
    + intros q Hq. by rewrite lookup_insert_ne.
    + intros _ [= Hempty]. apply Hsize. rewrite Hempty. apply map_size_empty.
Qed.

(** X2: the three mutations keep the state free of empty version maps:
    if no package is recorded with an empty map before [SetDependency]
    (with a dependency or with nil), [AddDependency] or
    [RemoveDependency], none is after. *)
Theorem mutations_keep_no_empty_entry
    (s : Appstate.State) (p c v : string) (dep : option Appstate.Dep) (d : Appstate.Dep) :
  Appstate.no_empty_entry s ->
  Appstate.no_empty_entry (Appstate.SetDependency p c dep s)
  /\ Appstate.no_empty_entry (Appstate.AddDependency p d s)
  /\ Appstate.no_empty_entry (Appstate.RemoveDependency p v s).
Proof.
  intros Hinv.
  assert (Hins : forall (x : Appstate.Dep) deps,
             Appstate.no_empty_entry
               (Appstate.set_Dependencies
                  (<[p := <[Appstate.Version x := x]> deps]> (Appstate.Dependencies s)) s)).
  { intros x deps q. unfold Appstate.getDeps. simpl.
    destruct (decide (p = q)) as [-> | Hne].
    - rewrite lookup_insert_eq. intros [= H]. by apply insert_non_empty in H.
    - rewrite lookup_insert_ne by done. apply Hinv. }
  assert (Hdel : Appstate.no_empty_entry
                   (Appstate.set_Dependencies (delete p (Appstate.Dependencies s)) s)).
  { intros q. unfold Appstate.getDeps. simpl.
    destruct (decide (p = q)) as [-> | Hne].
    - by rewrite lookup_delete_eq.
    - rewrite lookup_delete_ne by done. apply Hinv. }
  split; [| split].
  - unfold Appstate.SetDependency. destruct dep as [x |]; [apply Hins | apply Hdel].
  - unfold Appstate.AddDependency. apply Hins.
  - unfold Appstate.RemoveDependency.
    destruct (Appstate.getDeps p s) as [deps |] eqn:E; [| done].
    case_decide as Hsize; [apply Hdel |].
    intros q. unfold Appstate.getDeps. simpl.
    destruct (decide (p = q)) as [-> | Hne].
    + rewrite lookup_insert_eq. intros [= H]. apply Hsize. rewrite H. apply map_size_empty.
    + rewrite lookup_insert_ne by done. apply Hinv.
Qed.

Lemma release40_no_empty_entry : Appstate.no_empty_entry Samples.release40.
Proof.
  intros q. unfold Appstate.getDeps. simpl.
  destruct (decide ("game"%string = q)) as [<- | Hne].
  - rewrite lookup_singleton_eq. intros H. apply (inj Some) in H.
    by apply (map_non_empty_singleton (M:=gmap string)) in H.
  - by rewrite lookup_singleton_ne.
Qed.

Lemma mutations_keep_no_empty_entry_witness :
  Appstate.no_empty_entry
    (Appstate.SetDependency "game" "update" (Some (Samples.dep "0.42.0" 42)) Samples.release40)
  /\ Appstate.no_empty_entry (Appstate.AddDependency "game" (Samples.dep "0.41.0" 41) Samples.release40)
  /\ Appstate.no_empty_entry (Appstate.RemoveDependency "game" "0.40.0" Samples.release40).
Proof.
  apply (mutations_keep_no_empty_entry Samples.release40 "game" "update" "0.40.0"
           (Some (Samples.dep "0.42.0" 42)) (Samples.dep "0.41.0" 41)).
  exact release40_no_empty_entry.
Defined.

(** X3: [AddDependency] followed by [RemoveDependency] of the version
    added gives the state back, when that version was not recorded and
    the package had no empty map. *)
Theorem AddDependency_RemoveDependency
    (s : Appstate.State) (p : string) (d : Appstate.Dep) :
  Appstate.GetDeps p s <> Some ∅ ->
  (Appstate.GetDeps p s ≫= (.!! Appstate.Version d)) = None ->
  Appstate.RemoveDependency p (Appstate.Version d) (Appstate.AddDependency p d s) = s.
Proof.
  unfold Appstate.GetDeps, Appstate.getDeps. intros Hne Hfresh.
  unfold Appstate.RemoveDependency, Appstate.AddDependency, Appstate.getDeps. simpl.
  rewrite lookup_insert_eq.
  destruct (Appstate.Dependencies s !! p) as [deps |] eqn:E; simpl in *.
  - rewrite delete_insert_id by done.
    case_decide as Hsize.
    + apply map_size_empty_iff in Hsize. congruence.
    + unfold Appstate.set_Dependencies. simpl. rewrite insert_insert_eq.
      rewrite insert_id by done. by destruct s.
  - rewrite delete_insert_id by apply lookup_empty.
    case_decide as Hsize; [| by rewrite map_size_empty in Hsize].
    unfold Appstate.set_Dependencies. simpl.
    rewrite delete_insert_id by done. by destruct s.
Qed.

Lemma AddDependency_RemoveDependency_witness :
  Appstate.RemoveDependency "game" "0.41.0"
    (Appstate.AddDependency "game" (Samples.dep "0.41.0" 41) Samples.release40)
  = Samples.release40.
Proof.
  apply (AddDependency_RemoveDependency Samples.release40 "game" (Samples.dep "0.41.0" 41)).
  - apply release40_no_empty_entry.
  - reflexivity.
Defined.

Lemma GetDependency_None_iff (s : Appstate.State) (p : string) :
  Appstate.GetDependency p s = None
  <-> Appstate.GetDeps p s = None \/ Appstate.GetDeps p s = Some ∅.
Proof.
  unfold Appstate.GetDependency, Appstate.GetDeps.
  destruct (Appstate.getDeps p s) as [deps |]; [| by split; auto].
  destruct (map_to_list deps) as [| [v d] l] eqn:El.
  - apply map_to_list_empty_iff in El as ->. split; auto.
  - split; [discriminate |]. intros [H | H]; [discriminate |].
    apply (inj Some) in H. subst deps. by rewrite map_to_list_empty in El.
Qed.

Lemma GetDependency_recorded (s : Appstate.State) (p : string) (d : Appstate.Dep) :
  Appstate.GetDependency p s = Some d ->
  exists deps v, Appstate.GetDeps p s = Some deps /\ deps !! v = Some d.
Proof.
  unfold Appstate.GetDependency, Appstate.GetDeps.
  destruct (Appstate.getDeps p s) as [deps |]; [| discriminate].
  destruct (map_to_list deps) as [| [v d'] l] eqn:El; [discriminate |].
  intros [= ->]. exists deps, v. split; [done |].
  apply elem_of_map_to_list. rewrite El. by left.
Qed.

Lemma GetDependency_singleton (s : Appstate.State) (p v : string) (d : Appstate.Dep) :
  Appstate.GetDeps p s = Some {[ v := d ]} -> Appstate.GetDependency p s = Some d.
Proof.
  unfold Appstate.GetDependency, Appstate.GetDeps. intros ->.
  by rewrite map_to_list_singleton.
Qed.

(** X4: [GetDependency] returns nil exactly when the package has no
    entry or an empty one; what it returns is recorded under the package;
    and for a package with a single version it returns that version's
    record, whatever the iteration order of the map. *)
Theorem GetDependency_spec (s : Appstate.State) (p : string) :
  (Appstate.GetDependency p s = None
   <-> Appstate.GetDeps p s = None \/ Appstate.GetDeps p s = Some ∅)
  /\ (forall d, Appstate.GetDependency p s = Some d ->
        exists deps v, Appstate.GetDeps p s = Some deps /\ deps !! v = Some d)
  /\ (forall v d, Appstate.GetDeps p s = Some {[ v := d ]} ->
        Appstate.GetDependency p s = Some d).
Proof.
  split; [apply GetDependency_None_iff |].
  split; [apply GetDependency_recorded | apply GetDependency_singleton].
Qed.

(** X5: set and get compose. On a package with no entry,
    [SetDependency] with a dependency followed by [GetDependency] gives
    that dependency; [SetDependency] with nil followed by
    [GetDependency] gives nil; and clearing a package before recording a
    dependency leaves exactly that dependency under the package,
    whatever it held. *)
Theorem SetDependency_GetDependency
    (s : Appstate.State) (p c c' : string) (d : Appstate.Dep) :
  (Appstate.GetDeps p s = None ->
     Appstate.GetDependency p (Appstate.SetDependency p c (Some d) s) = Some d)
  /\ Appstate.GetDependency p (Appstate.SetDependency p c None s) = None
  /\ Appstate.GetDeps p
       (Appstate.SetDependency p c (Some d) (Appstate.SetDependency p c' None s))
     = Some {[ Appstate.Version d := d ]}.
Proof.
  assert (Hclear : forall c0, Appstate.GetDeps p (Appstate.SetDependency p c0 None s) = None).
  { intros c0. unfold Appstate.GetDeps, Appstate.getDeps, Appstate.SetDependency. simpl.
    apply lookup_delete_eq. }
  split; [| split].
  - intros Hnone. apply (GetDependency_singleton _ p (Appstate.Version d)).
    rewrite SetDependency_lookup, Hnone. reflexivity.
  - apply GetDependency_None_iff. left. apply Hclear.
  - rewrite SetDependency_lookup, Hclear. reflexivity.
Qed.

(** ** Paths *)

Lemma cleanStep_nonempty (rooted : bool) (out : list string) (elem : string) :
  Forall (fun e => e <> ""%string) out ->
  Forall (fun e => e <> ""%string) (Filepath.cleanStep rooted out elem).
Proof.
  intros H. unfold Filepath.cleanStep.
  destruct (String.eqb_spec elem ""); simpl; [done |].
  destruct (String.eqb elem "."); simpl; [done |].
  destruct (String.eqb elem "..").
  - destruct out as [| top rest].
    + destruct rooted; [done | by constructor].
    + destruct (String.eqb top ".."); [by constructor | by inversion H].
  - by constructor.
Qed.

Lemma fold_cleanStep_nonempty (rooted : bool) (elems out : list string) :
  Forall (fun e => e <> ""%string) out ->
  Forall (fun e => e <> ""%string) (fold_left (Filepath.cleanStep rooted) elems out).
Proof.
  revert out. induction elems as [| e elems IH]; intros out H; simpl; [done |].
  by apply IH, cleanStep_nonempty.
Qed.

Lemma concat_nonempty (sep : string) (l : list string) :
  l <> [] -> Forall (fun e => e <> ""%string) l -> String.concat sep l <> ""%string.
Proof.
  destruct l as [| x [| y l]]; [done | |]; intros _ H; inversion H as [| ? ? Hx _]; subst; simpl.
  - done.
  - destruct x; [done | discriminate].
Qed.

(** [Clean] never returns the empty string. *)
Lemma Clean_nonempty (path : string) : Filepath.Clean path <> ""%string.
Proof.
  unfold Filepath.Clean. destruct path as [| c rest]; [discriminate |].
  destruct (Ascii.eqb c "/"); [discriminate |].
  destruct (rev _) as [| x l] eqn:E; [discriminate |].
  apply concat_nonempty; [done |]. rewrite <- E.
  apply Forall_rev, fold_cleanStep_nonempty. constructor.
Qed.

(** X6: [SigPath] is the empty string exactly when [SigDir] is empty:
    with a signature directory the joined path is never empty, also when
    [SigFile] is empty. *)
Theorem SigPath_empty_iff (d : Appstate.Dep) :
  Appstate.SigPath d = ""%string <-> Appstate.SigDir d = ""%string.
Proof.
  unfold Appstate.SigPath. destruct (String.eqb_spec (Appstate.SigDir d) "") as [-> | Hne].
  - done.
  - split; [| done]. simpl.
    destruct (String.eqb_spec (Appstate.SigDir d) ""); [done |].
    intros H. by apply Clean_nonempty in H.
Qed.

(** ** Self-update: the swap of the binary *)





(** ** Hashes and signatures as text *)

Lemma round_length (k w : Z) (st : list Z) : length (Sha256.round k w st) = length st.
Proof.
  destruct st as [| a [| b [| c [| d [| e [| f [| g [| h [| i st]]]]]]]]]; reflexivity.
Qed.

Lemma rounds_length (ks win st : list Z) : length (Sha256.rounds ks win st) = length st.
Proof.
  revert win st. induction ks as [| k ks IH]; intros win st; simpl; [done |].
  destruct win; [done |]. by rewrite IH, round_length.
Qed.

Lemma compress_length (h block : list Z) : length (Sha256.compress h block) = length h.
Proof.
  unfold Sha256.compress.
  rewrite length_map, length_combine, rounds_length. lia.
Qed.

Lemma blocks_length (fuel : nat) (h bs : list Z) : length (Sha256.blocks fuel h bs) = length h.
Proof.
  revert h bs. induction fuel as [| fuel IH]; intros h bs; simpl; [done |].
  destruct bs; [done |]. by rewrite IH, compress_length.
Qed.

Lemma flat_map_bytes_length (ws : list Z) :
  length (flat_map Sha256.bytes_of_word ws) = (4 * length ws)%nat.
Proof. induction ws as [| w ws IH]; simpl; [done | rewrite IH; lia]. Qed.

Lemma flat_map_bytes_range (ws : list Z) :
  Forall (fun b => 0 <= b < 256)%Z (flat_map Sha256.bytes_of_word ws).
Proof.
  induction ws as [| w ws IH]; simpl; [constructor |].
  repeat (constructor; [apply Z.mod_pos_bound; lia |]). exact IH.
Qed.

(** A SHA-256 digest is 32 bytes. *)
Lemma Sum256_length (msg : list Z) : length (Sha256.Sum256 msg) = 32%nat.
Proof. unfold Sha256.Sum256. by rewrite flat_map_bytes_length, blocks_length. Qed.

Lemma Sum256_range (msg : list Z) : Forall (fun b => 0 <= b < 256)%Z (Sha256.Sum256 msg).
Proof. apply flat_map_bytes_range. Qed.

Lemma EncodeToString_length (bs : list Z) :
  String.length (Hex.EncodeToString bs) = (2 * length bs)%nat.
Proof. induction bs as [| b bs IH]; simpl; [done | rewrite IH; lia]. Qed.

Lemma digit_is_digit (n : Z) : (0 <= n < 16)%Z -> Hex.is_digit (Hex.digit n) = true.
Proof.
  intros H.
  assert (Hn : In n [0; 1; 2; 3; 4; 5; 6; 7; 8; 9; 10; 11; 12; 13; 14; 15]%Z).
  { simpl. lia. }
  simpl in Hn. repeat (destruct Hn as [<- | Hn]; [reflexivity |]). destruct Hn.
Qed.

Lemma EncodeToString_digits (bs : list Z) :
  Forall (fun b => 0 <= b < 256)%Z bs -> Hex.all_digits (Hex.EncodeToString bs) = true.
Proof.
  induction 1 as [| b bs Hb _ IH]; simpl; [done |].
  rewrite !digit_is_digit, IH; [done | |].
  - apply Z.mod_pos_bound. lia.
  - split; [apply Z.div_pos; lia | apply Z.div_lt_upper_bound; lia].
Qed.

(** X9: whatever the data and the key, [crypto.HMAC] returns a string of
    exactly 64 lower-case hexadecimal digits. *)
Theorem HMAC_format (data key : list Z) :
  String.length (Crypto.HMAC data key) = 64%nat
  /\ Hex.all_digits (Crypto.HMAC data key) = true.
Proof.
  unfold Crypto.HMAC, Hmac.Sum. split.
  - by rewrite EncodeToString_length, Sum256_length.
  - apply EncodeToString_digits, Sum256_range.
Qed.

(** X10: [VerifySHA256] returns nil only for a file that exists and an
    expected hash that is the lower-case hexadecimal SHA-256 of its
    bytes, 64 digits long: an expected hash in upper case or of another
    length is a mismatch. *)
Theorem VerifySHA256_accepts_only (path expectedHash : string) (d : Os.Disk) :
  Ioutil.VerifySHA256 path expectedHash d = None ->
  (exists bytes, Os.files d !! path = Some bytes
                 /\ expectedHash = Hex.EncodeToString (Sha256.Sum256 bytes))
  /\ String.length expectedHash = 64%nat
  /\ Hex.all_digits expectedHash = true.
Proof.
  unfold Ioutil.VerifySHA256.
  destruct (Os.files d !! path) as [bytes |]; [| discriminate].
  destruct (String.eqb_spec (Hex.EncodeToString (Sha256.Sum256 bytes)) expectedHash)
    as [<- | Hne]; [| discriminate].
  intros _. split; [by exists bytes |]. split.
  - by rewrite EncodeToString_length, Sum256_length.
  - apply EncodeToString_digits, Sum256_range.
Qed.

Lemma VerifySHA256_accepts_only_witness :
  (exists bytes, Os.files Samples.archiveDisk !! "/cache/jre.zip"%string = Some bytes
                 /\ Samples.archiveHash = Hex.EncodeToString (Sha256.Sum256 bytes))
  /\ String.length Samples.archiveHash = 64%nat
  /\ Hex.all_digits Samples.archiveHash = true.
Proof.
  apply (VerifySHA256_accepts_only "/cache/jre.zip" Samples.archiveHash Samples.archiveDisk).
  vm_compute. reflexivity.
Defined.

(** ** Download reporter: the clamp *)

(** X11: a reporter treats a byte count at or beyond the total as the
    total: the progress it computes, the values it keeps and the progress
    it reports are those of a complete download. *)
Theorem ReporterWithTotal_clamps
    (statusKey : string) (data : gmap string string) (totalBytes : Z)
    (progressScale progressOffset : float) (st : Download.Throttle)
    (bytesDownloaded speed : Z) :
  (totalBytes <= bytesDownloaded)%Z ->
  Download.finalProgress totalBytes progressScale progressOffset bytesDownloaded
  = Download.finalProgress totalBytes progressScale progressOffset totalBytes
  /\ fst (Download.ReporterWithTotal statusKey data totalBytes progressScale progressOffset
            st bytesDownloaded speed)
     = fst (Download.ReporterWithTotal statusKey data totalBytes progressScale progressOffset
              st totalBytes speed)
  /\ (Download.Progress <$>
        snd (Download.ReporterWithTotal statusKey data totalBytes progressScale progressOffset
               st bytesDownloaded speed))
     = (Download.Progress <$>
          snd (Download.ReporterWithTotal statusKey data totalBytes progressScale progressOffset
                 st totalBytes speed)).
Proof.
  intros H.
  assert (Hf : Download.finalProgress totalBytes progressScale progressOffset bytesDownloaded
               = Download.finalProgress totalBytes progressScale progressOffset totalBytes).
  { unfold Download.finalProgress.
    destruct (Z.ltb_spec 0 totalBytes) as [Hpos | Hnonpos]; [| done].
    rewrite Z.ltb_irrefl.
    destruct (Z.ltb_spec totalBytes bytesDownloaded) as [Hlt | Hge]; [done |].
    assert (bytesDownloaded = totalBytes) as -> by lia. done. }
  split; [exact Hf |].
  unfold Download.ReporterWithTotal. rewrite Hf.
  destruct (negb _ && _); simpl; auto.
Qed.

Lemma ReporterWithTotal_clamps_witness :
  Download.finalProgress 1000 1 0 1500 = Download.finalProgress 1000 1 0 1000
  /\ fst (Download.ReporterWithTotal "downloading" ∅ 1000 1 0 Download.fresh 1500 7)
     = fst (Download.ReporterWithTotal "downloading" ∅ 1000 1 0 Download.fresh 1000 7)
  /\ (Download.Progress <$>
        snd (Download.ReporterWithTotal "downloading" ∅ 1000 1 0 Download.fresh 1500 7))
     = (Download.Progress <$>
          snd (Download.ReporterWithTotal "downloading" ∅ 1000 1 0 Download.fresh 1000 7)).
Proof.
  apply (ReporterWithTotal_clamps "downloading" ∅ 1000 1 0 Download.fresh 1500 7). lia.
Defined.

(** ** Manifest cache *)

Section Getter.
Variable Domain : string.
Variable server : Ioutil.Request -> result Verget.Manifest.

Lemma Get_success_cache (g g' : Verget.Getter) channel (w w' : Ioutil.Wire) c :
  Verget.Get Domain server g channel w = (Ok c, g', w') ->
  Verget.cache g' = Some c.
Proof using Type.
  unfold Verget.Get. destruct (Verget.cache g) as [c0 |] eqn:E.
  - by intros [= <- <- _].
  - destruct (Verget.GetManifest _ _ _ _ _) as [[m | e] w1]; [| discriminate].
    by intros [= <- <- _].
Qed.

Lemma Get_cached (g : Verget.Getter) channel (w : Ioutil.Wire) c :
  Verget.cache g = Some c -> Verget.Get Domain server g channel w = (Ok c, g, w).
Proof using Type. intros H. unfold Verget.Get. by rewrite H. Qed.

Lemma GetManifest_online channel comp (w : Ioutil.Wire) :
  Ioutil.mode w = Net.ModeOnline ->
  snd (Verget.GetManifest Domain server channel comp w)
  = {| Ioutil.mode := Ioutil.mode w;
       Ioutil.sent := Ioutil.sent w
                      ++ [Ioutil.mkRequest None (Endpoints.LauncherVersion Domain channel comp) []] |}.
Proof using Type.
  intros H. unfold Verget.GetManifest, Ioutil.Get. rewrite H. simpl.
  by destruct (server _).
Qed.
End Getter.

(** X12: once a [Get] succeeded, every later [Get] on the getter
    returns the same manifest and leaves the getter and the network as
    they are: no request is sent, for whatever channel is asked and in
    whatever network mode, offline included. The cache is not keyed by
    the channel. *)
Theorem Get_memoizes
    (Domain : string) (server : Ioutil.Request -> result Verget.Manifest)
    (g g' : Verget.Getter) (channel : string) (w w' : Ioutil.Wire) (c : Verget.CachedManifest) :
  Verget.Get Domain server g channel w = (Ok c, g', w') ->
  forall channel2 w2, Verget.Get Domain server g' channel2 w2 = (Ok c, g', w2).
Proof.
  intros H channel2 w2. apply Get_cached. by apply Get_success_cache in H.
Qed.

Lemma Get_memoizes_witness :
  Verget.Get "hytale.com" Samples.versionServer
    (snd (fst (Verget.Get "hytale.com" Samples.versionServer
                 (Verget.mkGetter "launcher" None) "release" Samples.online)))
    "beta" Samples.offline
  = (Ok {| Verget.c_Manifest := Some (Samples.manifest "1.0.100"); Verget.c_Build := 0;
           Verget.c_Version := "1.0.100"; Verget.c_URL := ""; Verget.c_Hash := "";
           Verget.c_Size := 0 |},
     snd (fst (Verget.Get "hytale.com" Samples.versionServer
                 (Verget.mkGetter "launcher" None) "release" Samples.online)),
     Samples.offline).
Proof.
  refine (Get_memoizes "hytale.com" Samples.versionServer (Verget.mkGetter "launcher" None)
            _ "release" Samples.online _ _ _ "beta" Samples.offline).
  reflexivity.
Defined.

(** X13: a failed [Get] does not poison the cache: the getter is
    returned as it was, with nothing cached, and the next [Get] in mode
    Online fetches again, with one request for the manifest. *)
Theorem Get_failure_keeps_getter
    (Domain : string) (server : Ioutil.Request -> result Verget.Manifest)
    (g g' : Verget.Getter) (channel : string) (w w' : Ioutil.Wire) (e : error) :
  Verget.Get Domain server g channel w = (Err e, g', w') ->
  g' = g /\ Verget.cache g' = None
  /\ forall channel2 w2,
       Ioutil.mode w2 = Net.ModeOnline ->
       Ioutil.sent (snd (Verget.Get Domain server g' channel2 w2))
       = Ioutil.sent w2
         ++ [Ioutil.mkRequest None
               (Endpoints.LauncherVersion Domain channel2 (Verget.component g)) []].
Proof.
  unfold Verget.Get. destruct (Verget.cache g) as [c0 |] eqn:E; [discriminate |].
  destruct (Verget.GetManifest _ _ _ _ _) as [[m | e0] w1] eqn:Em; [discriminate |].
  intros [= _ <- _]. split; [done |]. split; [done |].
  intros channel2 w2 Hon. rewrite E.
  pose proof (GetManifest_online Domain server channel2 (Verget.component g) w2 Hon) as Hw.
  destruct (Verget.GetManifest Domain server channel2 (Verget.component g) w2)
    as [[m | e1] w3]; simpl in Hw; rewrite Hw; reflexivity.
Qed.

Lemma Get_failure_keeps_getter_witness :
  Verget.mkGetter "launcher" None = Verget.mkGetter "launcher" None
  /\ Verget.cache (Verget.mkGetter "launcher" None) = None
  /\ forall channel2 w2,
       Ioutil.mode w2 = Net.ModeOnline ->
       Ioutil.sent (snd (Verget.Get "hytale.com" Samples.versionServer
                           (Verget.mkGetter "launcher" None) channel2 w2))
       = Ioutil.sent w2
         ++ [Ioutil.mkRequest None
               (Endpoints.LauncherVersion "hytale.com" channel2
                  (Verget.component (Verget.mkGetter "launcher" None))) []].
Proof.
  apply (Get_failure_keeps_getter "hytale.com" Samples.versionServer
           (Verget.mkGetter "launcher" None) (Verget.mkGetter "launcher" None)
           "release" Samples.offline Samples.offline Net.ErrOffline).
  reflexivity.
Defined.

(** X14: [Invalidate] drops whatever is cached: the [Get] after it goes
    to the network, in mode Online with exactly one request, for the
    manifest of the getter's component on the channel asked, and in mode
    Offline with the offline sentinel and no request. *)
Theorem Invalidate_forces_fetch
    (Domain : string) (server : Ioutil.Request -> result Verget.Manifest)
    (g : Verget.Getter) (channel : string) (w : Ioutil.Wire) :
  match Ioutil.mode w with
  | Net.ModeOnline =>
      snd (Verget.Get Domain server (Verget.Invalidate g) channel w)
      = {| Ioutil.mode := Net.ModeOnline;
           Ioutil.sent := Ioutil.sent w
                          ++ [Ioutil.mkRequest None
                                (Endpoints.LauncherVersion Domain channel (Verget.component g)) []] |}
  | Net.ModeOffline =>
      Verget.Get Domain server (Verget.Invalidate g) channel w
      = (Err Net.ErrOffline, Verget.Invalidate g, w)
  end.
Proof.
  unfold Verget.Get, Verget.Invalidate, Verget.GetManifest, Ioutil.Get. simpl.
  destruct (Ioutil.mode w) eqn:E; simpl; [| done].
  by destruct (server _).
Qed.

(** ** Update checks *)

Section Checks.
Variables (Release Version : string) (BuildNumber : Z) (Domain : string).
Variable server : Ioutil.Request -> result Verget.Manifest.

(** A manifest that [Get] fetched is recorded with build 0. *)
Lemma Get_fresh_build (g g' : Verget.Getter) channel (w w' : Ioutil.Wire) c :
  Verget.cache g = None ->
  Verget.Get Domain server g channel w = (Ok c, g', w') ->
  Verget.c_Build c = 0%Z.
Proof using Type.
  intros E. unfold Verget.Get. rewrite E.
  destruct (Verget.GetManifest _ _ _ _ _) as [[m | e] w1]; [| discriminate].
  by intros [= <- _ _].
Qed.

(** The game check never yields an update. *)
Lemma CheckForUpdate_never_updates channel state auth u :
  Pkg.CheckForUpdate channel state auth <> Ok (Some u).
Proof using Type.
  unfold Pkg.CheckForUpdate, Pkg.getPatchSet.
  destruct (Pkg.Account auth) as [patchlines |]; [| discriminate].
  destruct (patchlines !! channel) as [patchline |]; [| discriminate].
  destruct (Pkg.NewestBuild patchline <? 1)%Z; [discriminate |].
  destruct (_ =? _)%Z; discriminate.
Qed.
End Checks.

(** X15: with nothing cached and a build number that is not negative,
    the launcher check never reports an update: the manifest it fetches
    is recorded with build 0, whatever the server answers. The same holds
    for the Java check when a JRE with a non-negative build is
    installed. *)
Theorem fresh_cache_never_updates
    (Release Version : string) (BuildNumber : Z) (Domain : string)
    (server : Ioutil.Request -> result Verget.Manifest)
    (state : Appstate.State) (channel : string) (p : Pkg.Process) (jre : Appstate.Dep) :
  (0 <= BuildNumber)%Z ->
  Verget.cache (Pkg.launcherManifest p) = None ->
  Verget.cache (Pkg.javaManifest p) = None ->
  Appstate.GetDependency "jre" state = Some jre ->
  (0 <= Appstate.Build jre)%Z ->
  (forall u,
      fst (Pkg.CheckForLauncherUpdate Release Version BuildNumber Domain server p)
      <> Ok (Some u))
  /\ (forall u, fst (Pkg.CheckForJavaUpdate Domain server state channel p) <> Ok (Some u)).
Proof.
  intros Hb Hl Hj Hjre Hjb. split; intros u.
  - unfold Pkg.CheckForLauncherUpdate.
    destruct (Verget.Get _ _ _ _ _) as [[[c | e] g] w] eqn:E; simpl; [| discriminate].
    apply Get_fresh_build in E; [| done]. rewrite E.
    destruct (Z.leb_spec 0 BuildNumber); [discriminate | lia].
  - unfold Pkg.CheckForJavaUpdate. rewrite Hjre.
    destruct (Verget.Get _ _ _ _ _) as [[[c | e] g] w] eqn:E; simpl; [| discriminate].
    apply Get_fresh_build in E; [| done]. rewrite E.
    destruct (Z.leb_spec 0 (Appstate.Build jre)); [discriminate | lia].
Qed.

Lemma fresh_cache_never_updates_witness :
  (forall u,
      fst (Pkg.CheckForLauncherUpdate "release" "1.0.99" 99 "hytale.com" Samples.versionServer
             (Pkg.init Samples.online))
      <> Ok (Some u))
  /\ (forall u,
        fst (Pkg.CheckForJavaUpdate "hytale.com" Samples.versionServer Samples.withJre
               "release" (Pkg.init Samples.online))
        <> Ok (Some u)).
Proof.
  apply (fresh_cache_never_updates "release" "1.0.99" 99 "hytale.com" Samples.versionServer
           Samples.withJre "release" (Pkg.init Samples.online) (Samples.dep "17.0.9" 17)).
  - lia.
  - reflexivity.
  - reflexivity.
  - vm_compute. reflexivity.
  - simpl. lia.
Defined.

(** X16: the game check never yields an update: the patch set it works
    with has no step, so a game that is behind the newest build is an
    error ("no patches available"), and the check answers "no update"
    exactly when the account has the channel's patchline, its newest
    build is at least 1 and the installed build equals it. *)
Theorem CheckForUpdate_never_yields_update
    (channel : string) (state : Appstate.State) (auth : Pkg.Auth) :
  (forall u, Pkg.CheckForUpdate channel state auth <> Ok (Some u))
  /\ (Pkg.CheckForUpdate channel state auth = Ok None
      <-> exists patchlines patchline,
            Pkg.Account auth = Some patchlines
            /\ patchlines !! channel = Some patchline
            /\ (1 <= Pkg.NewestBuild patchline)%Z
            /\ match Pkg.currentVersion state with
               | Some c => Pkg.gb_Build c
               | None => 0%Z
               end = Pkg.NewestBuild patchline).
Proof.
  split; [intros u; apply CheckForUpdate_never_updates |].
  unfold Pkg.CheckForUpdate, Pkg.getPatchSet.
  destruct (Pkg.Account auth) as [patchlines |].
  2: { split; [discriminate | by intros (? & ? & ? & _)]. }
  destruct (patchlines !! channel) as [patchline |] eqn:Ep.
  2: { split; [discriminate |]. intros (? & ? & [= <-] & H & _). congruence. }
  destruct (Z.ltb_spec (Pkg.NewestBuild patchline) 1).
  { split; [discriminate |]. intros (? & ? & [= <-] & H' & ? & _).
    rewrite Ep in H'. injection H' as <-. lia. }
  destruct (Z.eqb_spec
              match Pkg.currentVersion state with Some c => Pkg.gb_Build c | None => 0%Z end
              (Pkg.NewestBuild patchline)) as [Heq | Hne].
  - split; [| done]. intros _. by exists patchlines, patchline.
  - simpl. split; [discriminate |].
    intros (? & ? & [= <-] & H' & _ & Heq). rewrite Ep in H'. by injection H' as <-.
Qed.

(** X17: what [CheckAllUpdates] can return. A list it returns holds the
    launcher update alone, or the Java update alone, or nothing; it never
    holds a game update, and when it does not hold the launcher update
    the game check said "no update". *)
Theorem CheckAllUpdates_results
    (Release Version : string) (BuildNumber : Z) (Domain : string)
    (server : Ioutil.Request -> result Verget.Manifest)
    (state : Appstate.State) (auth : Pkg.Auth) (channel : string)
    (p p' : Pkg.Process) (updates : list Pkg.Update) :
  Pkg.CheckAllUpdates Release Version BuildNumber Domain server state auth channel p
  = (Ok updates, p') ->
  (exists u, updates = [Pkg.Launcher u])
  \/ ((updates = [] \/ exists u, updates = [Pkg.Java u])
      /\ Pkg.CheckForUpdate channel state auth = Ok None).
Proof.
  unfold Pkg.CheckAllUpdates.
  destruct (Pkg.CheckForLauncherUpdate _ _ _ _ _ _) as [[[lu |] | e] p1] eqn:El;
    [| | discriminate].
  - intros [= <- _]. left.
    unfold Pkg.CheckForLauncherUpdate in El.
    destruct (Verget.Get _ _ _ _ _) as [[[c | e] g] w]; [| discriminate].
    destruct (_ <=? _)%Z; [discriminate |]. injection El as <- _. eauto.
  - destruct (Pkg.CheckForJavaUpdate _ _ _ _ _) as [[ju | e] p2] eqn:Ej; [| discriminate].
    destruct (Pkg.CheckForUpdate channel state auth) as [[gu |] | e] eqn:Eg; [| | discriminate].
    { by apply CheckForUpdate_never_updates in Eg. }
    intros [= <- _]. right. split; [| done].
    destruct ju as [ju |]; [right | by left].
    unfold Pkg.CheckForJavaUpdate in Ej.
    destruct (Verget.Get _ _ _ _ _) as [[[c | e] g] w]; [| discriminate].
    destruct (match Appstate.GetDependency "jre" state with Some _ => _ | None => _ end);
      [discriminate |].
    injection Ej as <- _. eauto.
Qed.

Lemma CheckAllUpdates_results_witness :
  (exists u, [Pkg.Launcher Samples.launcherFound] = [Pkg.Launcher u])
  \/ (([Pkg.Launcher Samples.launcherFound] = []
       \/ exists u, [Pkg.Launcher Samples.launcherFound] = [Pkg.Java u])
      /\ Pkg.CheckForUpdate "release" Samples.release40 Samples.auth = Ok None).
Proof.
  apply (CheckAllUpdates_results "release" "1.0.99" 99 "hytale.com" Samples.versionServer
           Samples.release40 Samples.auth "release" Samples.process Samples.process).
  reflexivity.
Defined.

(** ** Game update: failure, cancellation and the empty patch set *)



Section GameFailure.
Variables (storage : string) (environ : gmap string string) (ctx : nat -> option error).
Variable DownloadTemp : string -> string -> string -> Os.Disk -> result string * Os.Disk.
Variable MkdirTemp : string -> string -> Os.Disk -> result string * Os.Disk.
Variable applyWharf :
  string -> string -> string -> string -> Os.Disk -> option error * list float * Os.Disk.
Variable validateWharf : string -> string -> Os.Disk -> option error * list float.


End GameFailure.



(** X19: with an empty patch set [gameUpdate.Apply] succeeds at once: it
    polls nothing, downloads nothing, leaves the disk as it is, records
    the target version as the "game" dependency and reports completion. *)
Theorem gameApply_empty_patch_set
    (storage : string) (environ : gmap string string) (ctx : nat -> option error)
    (DownloadTemp : string -> string -> string -> Os.Disk -> result string * Os.Disk)
    (MkdirTemp : string -> string -> Os.Disk -> result string * Os.Disk)
    (applyWharf :
       string -> string -> string -> string -> Os.Disk -> option error * list float * Os.Disk)
    (validateWharf : string -> string -> Os.Disk -> option error * list float)
    (u : Pkg.gameUpdate) (state : Appstate.State) (r : Pkg.Run) :
  Pkg.Patches u = [] ->
  Pkg.gameApply storage environ ctx DownloadTemp MkdirTemp applyWharf validateWharf u state r
  = (None, [],
     Appstate.SetDependency "game" "update"
       (Some {| Appstate.Version := Pkg.gu_Version u; Appstate.Build := Pkg.gu_TargetBuild u;
                Appstate.BuildID := 0; Appstate.Hash := ""; Appstate.Path := "";
                Appstate.SigDir := ""; Appstate.SigFile := "" |}) state,
     {| Pkg.disk := Pkg.disk r; Pkg.keyring := Pkg.keyring r;
        Pkg.reported := Pkg.reported r
                        ++ [{| Pkg.us_State := Pkg.StateComplete; Pkg.us_Progress := 1 |}];
        Pkg.spawned := Pkg.spawned r; Pkg.polls := Pkg.polls r |}).
Proof.
  intros H. unfold Pkg.gameApply. rewrite H. simpl.
  unfold Pkg.commit, Pkg.deletePatchFiles, Pkg.saveSig, Pkg.demoteOldVersions, Pkg.report,
    Pkg.with_disk. simpl. by destruct r as [[] ? ? ? ?].
Qed.

Lemma gameApply_empty_patch_set_witness :
  Pkg.gameApply Samples.storage ∅ Samples.never Samples.downloadTemp Samples.mkdirTemp
    Samples.patchTool Samples.validator Samples.update0 Samples.release40 Samples.run0
  = (None, [],
     Appstate.SetDependency "game" "update"
       (Some {| Appstate.Version := Pkg.gu_Version Samples.update0;
                Appstate.Build := Pkg.gu_TargetBuild Samples.update0;
                Appstate.BuildID := 0; Appstate.Hash := ""; Appstate.Path := "";
                Appstate.SigDir := ""; Appstate.SigFile := "" |}) Samples.release40,
     {| Pkg.disk := Pkg.disk Samples.run0; Pkg.keyring := Pkg.keyring Samples.run0;
        Pkg.reported := Pkg.reported Samples.run0
                        ++ [{| Pkg.us_State := Pkg.StateComplete; Pkg.us_Progress := 1 |}];
        Pkg.spawned := Pkg.spawned Samples.run0; Pkg.polls := Pkg.polls Samples.run0 |}).
Proof.
  apply (gameApply_empty_patch_set Samples.storage ∅ Samples.never Samples.downloadTemp
           Samples.mkdirTemp Samples.patchTool Samples.validator Samples.update0
           Samples.release40 Samples.run0).
  reflexivity.
Defined.

(** ** Staging directory *)

Lemma RemoveAll_gone (path q : string) (d : Os.Disk) :
  Os.below path q = true ->
  Os.files (Os.RemoveAll path d) !! q = None /\ q ∉ Os.dirs (Os.RemoveAll path d).
Proof.
  intros H. unfold Os.RemoveAll. simpl. split.
  - apply map_lookup_filter_None. right. intros x _. simpl. congruence.
  - intros Hin. apply elem_of_filter in Hin as [Hf _]. congruence.
Qed.

(** X20: the staging directory of a patch step does not outlive the
    step: whenever [apply] got a staging directory, then on return,
    whether the patch tool succeeded or failed, the directory and every
    file below it are gone. *)
Theorem apply_removes_staging_dir
    (environ : gmap string string)
    (MkdirTemp : string -> string -> Os.Disk -> result string * Os.Disk)
    (applyWharf :
       string -> string -> string -> string -> Os.Disk -> option error * list float * Os.Disk)
    (p : Pkg.gamePatch) (gameDir stagingDir : string) (r r' : Pkg.Run) (d1 : Os.Disk)
    (res : option error) :
  Pkg.mkStagingDir environ MkdirTemp (Pkg.disk r) = (Ok stagingDir, d1) ->
  Pkg.apply environ MkdirTemp applyWharf p gameDir r = (res, r') ->
  forall q, Os.below stagingDir q = true ->
            Os.files (Pkg.disk r') !! q = None /\ q ∉ Os.dirs (Pkg.disk r').
Proof.
  intros Hmk. unfold Pkg.apply. rewrite Hmk.
  destruct (applyWharf _ _ _ _ _) as [[tool progress] d2].
  intros Happly q Hq.
  assert (Hdisk : Pkg.disk r'
                  = Os.RemoveAll stagingDir
                      (Pkg.disk (Pkg.report_all Pkg.StateApplyingPatch progress
                                   (Pkg.with_disk d2 r)))).
  { destruct tool; by injection Happly as _ <-. }
  rewrite Hdisk. by apply RemoveAll_gone.
Qed.

Lemma apply_removes_staging_dir_witness :
  Os.files (Pkg.disk (snd Samples.stepApplied)) !! "/tmp/hytale-patch-staging-1/scratch"%string
  = None
  /\ "/tmp/hytale-patch-staging-1/scratch"%string ∉ Os.dirs (Pkg.disk (snd Samples.stepApplied)).
Proof.
  refine (apply_removes_staging_dir {[ "TMPDIR"%string := "/tmp"%string ]} Samples.mkdirTemp
            Samples.patchTool Samples.stepDownloaded Samples.gameDir
            "/tmp/hytale-patch-staging-1" Samples.runDownloaded (snd Samples.stepApplied)
            (snd (Pkg.mkStagingDir {[ "TMPDIR"%string := "/tmp"%string ]} Samples.mkdirTemp
                    (Pkg.disk Samples.runDownloaded)))
            (fst Samples.stepApplied) _ _ "/tmp/hytale-patch-staging-1/scratch" _).
  - vm_compute. reflexivity.
  - unfold Samples.stepApplied. by destruct (Pkg.apply _ _ _ _ _ _).
  - reflexivity.
Defined.

(** ** Launcher update *)



(** ** Archive extraction *)

#[local] Arguments Filepath.JoinPath : simpl never.
#[local] Arguments Filepath.Clean : simpl never.
#[local] Arguments Filepath.Dir : simpl never.

Section Extraction.
Variable openZip : list Z -> result (list Ioutil.ZipFile).
Variable openTarGz : list Z -> result (list (result Ioutil.TarEntry)).
Variables (destDir q : string).
Hypothesis Hq : Ioutil.insideDest destDir q = false.

Lemma write_inside_keeps (destPath : string) (bytes : list Z) (d : Os.Disk) :
  Ioutil.insideDest destDir destPath = true ->
  Os.files (snd (Os.WriteFile destPath bytes d)) !! q = Os.files d !! q.
Proof using Hq.
  intros H. simpl. apply lookup_insert_ne. intros ->. congruence.
Qed.




End Extraction.



(** ** Java runtime update *)

Section JavaApply.
Variables (Release storage : string) (environ : gmap string string).
Variable DownloadTemp : string -> string -> string -> Os.Disk -> result string * Os.Disk.
Variable openZip : list Z -> result (list Ioutil.ZipFile).
Variable openTarGz : list Z -> result (list (result Ioutil.TarEntry)).
Variable runVersion : string -> Os.Disk -> Pkg.Exec.

End JavaApply.



(** X24: the archive a Java update downloaded never outlives
    [javaUpdate.Apply]: once the download succeeded, the archive's path
    holds no file when [Apply] returns, with or without an error. *)
Theorem javaApply_removes_archive
    (Release storage : string) (environ : gmap string string)
    (DownloadTemp : string -> string -> string -> Os.Disk -> result string * Os.Disk)
    (openZip : list Z -> result (list Ioutil.ZipFile))
    (openTarGz : list Z -> result (list (result Ioutil.TarEntry)))
    (runVersion : string -> Os.Disk -> Pkg.Exec)
    (u : Pkg.javaUpdate) (state state' : Appstate.State)
    (r r1 r' : Pkg.Run) (res : option error) (archivePath : string) :
  let r0 := snd (Pkg.uninstall storage u state r) in
  Pkg.DownloadTempSimple storage DownloadTemp (Pkg.ju_DownloadURL u)
    (Pkg.with_disk
       (Os.MkdirAll (Pkg.PackageDir storage "jre" (Pkg.ju_Channel u) "latest") (Pkg.disk r0)) r0)
  = (Ok archivePath, r1) ->
  Pkg.javaApply Release storage environ DownloadTemp openZip openTarGz runVersion u state r
  = (res, state', r') ->
  Os.files (Pkg.disk r') !! archivePath = None.
Proof.
  intros r0 Hd. subst r0. unfold Pkg.javaApply.
  destruct (Pkg.uninstall storage u state r) as [state1 r0]. simpl in *. rewrite Hd.
  destruct (Ioutil.ExtractArchive _ _ _ _ _) as [[e |] d];
    [intros [= _ _ <-]; apply Remove_gone |].
  destruct (Pkg.MakeExecutable _ _); [intros [= _ _ <-]; apply Remove_gone |].
  destruct (Pkg.javaValidateBin _ _ _ _ _); intros [= _ _ <-]; apply Remove_gone.
Qed.

Lemma javaApply_removes_archive_witness :
  Os.files (Pkg.disk (snd Samples.javaRejected))
    !! "/home/u/.local/share/hytale/cache/jre-21.zip"%string = None.
Proof.
  refine (javaApply_removes_archive "release" Samples.storage ∅ Samples.downloadZip
            Samples.zipJre Samples.noTar Samples.crashes Samples.java21 Samples.withJre
            (snd (fst Samples.javaRejected)) Samples.run0
            (snd (Pkg.DownloadTempSimple Samples.storage Samples.downloadZip
                    (Pkg.ju_DownloadURL Samples.java21)
                    (Pkg.with_disk
                       (Os.MkdirAll (Pkg.PackageDir Samples.storage "jre" "release" "latest")
                          (Pkg.disk (snd (Pkg.uninstall Samples.storage Samples.java21
                                            Samples.withJre Samples.run0))))
                       (snd (Pkg.uninstall Samples.storage Samples.java21
                               Samples.withJre Samples.run0)))))
            (snd Samples.javaRejected) (fst (fst Samples.javaRejected))
            "/home/u/.local/share/hytale/cache/jre-21.zip" _ _).
  - reflexivity.
  - unfold Samples.javaRejected.
    by destruct (Pkg.javaApply _ _ _ _ _ _ _ _ _ _) as [[? ?] ?].
Defined.

(** ** Applying a list of updates *)

Section ApplyUpdates.
Variables (Release storage : string) (environ : gmap string string).
Variable executable : result string.
Variable pid : Z.
Variable ctx : nat -> option error.
Variable DownloadTemp : string -> string -> string -> Os.Disk -> result string * Os.Disk.
Variable runTest : string -> Os.Disk -> option error.
Variable RunElevated : string -> list string -> option error.
Variable MkdirTemp : string -> string -> Os.Disk -> result string * Os.Disk.
Variable applyWharf :
  string -> string -> string -> string -> Os.Disk -> option error * list float * Os.Disk.
Variable validateWharf : string -> string -> Os.Disk -> option error * list float.
Variable openZip : list Z -> result (list Ioutil.ZipFile).
Variable openTarGz : list Z -> result (list (result Ioutil.TarEntry)).
Variable runVersion : string -> Os.Disk -> Pkg.Exec.

(** [launcherUpdate.Apply] never returns nil. *)
Lemma launcherApply_not_nil u r r' :
  Pkg.launcherApply Release storage executable pid DownloadTemp runTest RunElevated u r
  <> (Pkg.Returned None, r').
Proof using Type.
  unfold Pkg.launcherApply, Pkg.selfUpdate.
  destruct (Pkg.DownloadTempSimple _ _ _ _) as [[path | e] r1]; [| discriminate].
  destruct (Pkg.validateBin _ _ _); [discriminate |].
  destruct (Pkg.LoadSelfUpdateKey _) as [[key | e] k]; [| discriminate].
  destruct executable; [| discriminate].
  destruct (RunElevated _ _); discriminate.
Qed.

(** The loop stops at the first update that does not return nil, and at
    a cancelled context: what follows in the list plays no part. *)
Lemma applyFrom_stops total i (l1 l2 : list Pkg.Update) state r :
  fst (fst (Pkg.applyFrom Release storage environ executable pid ctx DownloadTemp runTest
              RunElevated MkdirTemp applyWharf validateWharf openZip openTarGz runVersion
              total i l1 state r)) <> Pkg.Returned None ->
  Pkg.applyFrom Release storage environ executable pid ctx DownloadTemp runTest
    RunElevated MkdirTemp applyWharf validateWharf openZip openTarGz runVersion
    total i (l1 ++ l2) state r
  = Pkg.applyFrom Release storage environ executable pid ctx DownloadTemp runTest
      RunElevated MkdirTemp applyWharf validateWharf openZip openTarGz runVersion
      total i l1 state r.
Proof using Type.
  revert i state r. induction l1 as [| u l1 IH]; intros i state r; simpl.
  - intros H. by destruct H.
  - destruct (ctx (Pkg.polls r)); [done |].
    destruct (Pkg.Apply _ _ _ _ _ _ _ _ _ _ _ _ _ _ _ _ _ _) as [[out state1] r1].
    destruct out as [[e |] | code]; [done | apply IH | done].
Qed.
End ApplyUpdates.


(** X26: nothing is applied after a launcher update. Whatever follows a
    launcher update in the list, the loop of [ApplyUpdates] ends with the
    launcher update, in an error or in the exit of the process:
    [launcherUpdate.Apply] never returns nil. *)
Theorem ApplyUpdates_launcher_is_last
    (Release storage : string) (environ : gmap string string)
    (executable : result string) (pid : Z) (ctx : nat -> option error)
    (DownloadTemp : string -> string -> string -> Os.Disk -> result string * Os.Disk)
    (runTest : string -> Os.Disk -> option error)
    (RunElevated : string -> list string -> option error)
    (MkdirTemp : string -> string -> Os.Disk -> result string * Os.Disk)
    (applyWharf :
       string -> string -> string -> string -> Os.Disk -> option error * list float * Os.Disk)
    (validateWharf : string -> string -> Os.Disk -> option error * list float)
    (openZip : list Z -> result (list Ioutil.ZipFile))
    (openTarGz : list Z -> result (list (result Ioutil.TarEntry)))
    (runVersion : string -> Os.Disk -> Pkg.Exec)
    (total i : nat) (u : Pkg.launcherUpdate) (rest : list Pkg.Update)
    (state : Appstate.State) (r : Pkg.Run) :
  let run := Pkg.applyFrom Release storage environ executable pid ctx DownloadTemp runTest
               RunElevated MkdirTemp applyWharf validateWharf openZip openTarGz runVersion
               total i in
  run (Pkg.Launcher u :: rest) state r = run [Pkg.Launcher u] state r
  /\ fst (fst (run (Pkg.Launcher u :: rest) state r)) <> Pkg.Returned None
  /\ snd (fst (run (Pkg.Launcher u :: rest) state r)) = state.
Proof.
  intros run. subst run.
  assert (H : fst (fst (Pkg.applyFrom Release storage environ executable pid ctx DownloadTemp
                          runTest RunElevated MkdirTemp applyWharf validateWharf openZip
                          openTarGz runVersion total i [Pkg.Launcher u] state r))
              <> Pkg.Returned None
              /\ snd (fst (Pkg.applyFrom Release storage environ executable pid ctx DownloadTemp
                             runTest RunElevated MkdirTemp applyWharf validateWharf openZip
                             openTarGz runVersion total i [Pkg.Launcher u] state r)) = state).
  { simpl. destruct (ctx (Pkg.polls r)); [by split |].
    destruct (Pkg.launcherApply _ _ _ _ _ _ _ _ _) as [out r1] eqn:E.
    destruct out as [[e |] | code]; [by split | | by split].
    by apply launcherApply_not_nil in E. }
  destruct H as [H1 H2].
  assert (Heq := applyFrom_stops Release storage environ executable pid ctx DownloadTemp
                   runTest RunElevated MkdirTemp applyWharf validateWharf openZip openTarGz
                   runVersion total i [Pkg.Launcher u] rest state r H1).
  simpl app in Heq. rewrite Heq. by repeat split.
Qed.

(** ** Validation of the Java runtime *)

Lemma Remove_keeps_dirs (path : string) (d : Os.Disk) :
  Os.dirs (snd (Os.Remove path d)) = Os.dirs d.
Proof. unfold Os.Remove. by destruct (Os.files d !! path). Qed.



(** X28: a Java runtime that fails its validation is not left on the
    disk. When [javaUpdate.Apply] returns the error of the validation,
    the JRE directory of the channel and everything below it are gone:
    no file and no directory at or below it is left. *)
Theorem javaApply_rejected_jre_removed
    (Release storage : string) (environ : gmap string string)
    (DownloadTemp : string -> string -> string -> Os.Disk -> result string * Os.Disk)
    (openZip : list Z -> result (list Ioutil.ZipFile))
    (openTarGz : list Z -> result (list (result Ioutil.TarEntry)))
    (runVersion : string -> Os.Disk -> Pkg.Exec)
    (u : Pkg.javaUpdate) (state state' : Appstate.State) (r r' : Pkg.Run) (err : error) :
  Pkg.javaApply Release storage environ DownloadTemp openZip openTarGz runVersion u state r
  = (Some err, state', r') ->
  Strings.HasPrefix err "Java validation failed: " = true ->
  forall q, Os.below (Pkg.PackageDir storage "jre" (Pkg.ju_Channel u) "latest") q = true ->
            Os.files (Pkg.disk r') !! q = None /\ q ∉ Os.dirs (Pkg.disk r').
Proof.
  unfold Pkg.javaApply.
  destruct (Pkg.uninstall storage u state r) as [state1 r0].
  destruct (Pkg.DownloadTempSimple _ _ _ _) as [[archivePath | e] r1].
  2: { intros [= <- _ _] Hpre. discriminate Hpre. }
  destruct (Ioutil.ExtractArchive _ _ _ _ _) as [[e |] d].
  { intros [= <- _ _] Hpre. discriminate Hpre. }
  destruct (Pkg.MakeExecutable _ _).
  { intros [= <- _ _] Hpre. discriminate Hpre. }
  destruct (Pkg.javaValidateBin _ _ _ _ _); [| discriminate].
  intros [= _ _ <-] _ q Hq. simpl.
  destruct (RemoveAll_gone _ q d Hq) as [Hf Hd]. split.
  - by apply Remove_keeps_missing.
  - by rewrite Remove_keeps_dirs.
Qed.

Lemma javaApply_rejected_jre_removed_witness :
  Os.files (Pkg.disk (snd Samples.javaRejected))
    !! "/home/u/.local/share/hytale/pkg/jre/release/latest/bin/java"%string = None
  /\ "/home/u/.local/share/hytale/pkg/jre/release/latest/bin/java"%string
     ∉ Os.dirs (Pkg.disk (snd Samples.javaRejected)).
Proof.
  refine (javaApply_rejected_jre_removed "release" Samples.storage ∅ Samples.downloadZip
            Samples.zipJre Samples.noTar Samples.crashes Samples.java21 Samples.withJre
            (snd (fst Samples.javaRejected)) Samples.run0 (snd Samples.javaRejected)
            "Java validation failed: java validation failed with exit code 1" _ _
            "/home/u/.local/share/hytale/pkg/jre/release/latest/bin/java" _).
  - vm_compute. reflexivity.
  - reflexivity.
  - vm_compute. reflexivity.
Defined.

(** ** The current profile of an account *)

(** X29: selecting a profile and reading it back. After
    [SetCurrentProfile] accepted a UUID that is not empty, the account
    records the UUID as selected and [GetCurrentProfile] returns a profile
    of the list with this UUID, never nil; and after any [Refresh] of the
    account, whatever the server answered, [GetCurrentProfile] returns
    the first profile with the selected UUID of the list as refreshed,
    so never the data from before the refresh, and nil when the
    refreshed list no longer holds the UUID. *)
Theorem SetCurrentProfile_GetCurrentProfile
    (uuid : string) (a a1 : Account.Account) :
  uuid <> ""%string ->
  Account.SetCurrentProfile uuid a = (None, a1) ->
  Account.SelectedProfile a1 = Some uuid
  /\ Account.Profiles a1 = Account.Profiles a
  /\ (exists p, Account.GetCurrentProfile a1 = Some p
                /\ Account.UUID p = uuid /\ In p (Account.Profiles a))
  /\ forall (Domain Release GOOS GOARCH : string) (environ : gmap string string)
            (server : Ioutil.Request -> result Account.launcherData) (now : Z)
            (client : option string) (cause : string) (w : Ioutil.Wire),
       let a2 := snd (fst (Account.Refresh Domain Release GOOS GOARCH environ server now
                             a1 client cause w)) in
       Account.SelectedProfile a2 = Some uuid
       /\ Account.GetCurrentProfile a2
          = find (fun p => String.eqb (Account.UUID p) uuid) (Account.Profiles a2).
Proof.
  intros Hne. unfold Account.SetCurrentProfile.
  apply String.eqb_neq in Hne. rewrite Hne.
  destruct (find _ (Account.Profiles a)) as [p |] eqn:Hfind; [| discriminate].
  intros [= <-]. destruct (find_some _ _ Hfind) as [Hin Hp].
  apply String.eqb_eq in Hp.
  assert (Hget : forall l,
             match Some p with
             | None => None
             | Some current =>
                 find (fun q => String.eqb (Account.UUID q) (Account.UUID current)) l
             end
             = find (fun q => String.eqb (Account.UUID q) uuid) l).
  { intros l. by rewrite Hp. }
  split; [done |]. split; [done |]. split.
  - exists p. unfold Account.GetCurrentProfile. simpl. by rewrite Hp.
  - intros Domain Release GOOS GOARCH environ server now client cause w. cbv zeta.
    unfold Account.Refresh.
    destruct (Net.OfflineError _); [by split; [| apply Hget] |].
    destruct (Ioutil.Get _ _ _ _ _) as [[data | e] w'].
    + destruct (decide _); by split; [| apply Hget].
    + by split; [| apply Hget].
Qed.

Lemma SetCurrentProfile_GetCurrentProfile_witness :
  Account.SelectedProfile Samples.selected = Some (Account.UUID Samples.player)
  /\ Account.Profiles Samples.selected = Account.Profiles Samples.account
  /\ (exists p, Account.GetCurrentProfile Samples.selected = Some p
                /\ Account.UUID p = Account.UUID Samples.player
                /\ In p (Account.Profiles Samples.account))
  /\ forall (Domain Release GOOS GOARCH : string) (environ : gmap string string)
            (server : Ioutil.Request -> result Account.launcherData) (now : Z)
            (client : option string) (cause : string) (w : Ioutil.Wire),
       let a2 := snd (fst (Account.Refresh Domain Release GOOS GOARCH environ server now
                             Samples.selected client cause w)) in
       Account.SelectedProfile a2 = Some (Account.UUID Samples.player)
       /\ Account.GetCurrentProfile a2
          = find (fun p => String.eqb (Account.UUID p) (Account.UUID Samples.player))
              (Account.Profiles a2).
Proof.
  apply (SetCurrentProfile_GetCurrentProfile (Account.UUID Samples.player) Samples.account
           Samples.selected).
  - discriminate.
  - reflexivity.
Defined.

(** ** The OAuth callback and the token exchange *)

(** X30: how a login can end in a token. The callback handler starts
    the exchange goroutine exactly when an attempt is in progress, the
    state parameter equals the state of the attempt, the request carries
    no error parameter and its code is not empty; the code exchanged is
    the code of the request, and the handler itself never sends a token.
    The goroutine sends exactly one result, and this result carries a
    token only if, when the goroutine ran, an attempt and a configuration
    were in place and the token endpoint, asked with the code and the
    verifier of that attempt, answered with this token and no error.
    After [Stop] the handler answers 400 without sending a result, and an
    exchange still under way ends in an error. *)
Theorem callback_exchange
    (l : Oauth.Loopback) (query : gmap string (list string))
    (exchange : string -> string -> option Oauth.Token * option error)
    (l' : Oauth.Loopback) (code : string) :
  (Oauth.starts_exchange (Oauth.handleCallback l query)
   <-> exists st, Oauth.state l = Some st
                  /\ Oauth.Get query "state" = Oauth.State st
                  /\ Oauth.Get query "error" = ""%string
                  /\ Oauth.Get query "code" <> ""%string)
  /\ (forall c, In (Oauth.GoExchangeCode c) (Oauth.handleCallback l query) ->
                c = Oauth.Get query "code")
  /\ ~ Oauth.delivers_token (Oauth.handleCallback l query)
  /\ (exists res,
        Oauth.exchangeCode exchange l' code = [Oauth.Send res]
        /\ forall tok, Oauth.r_Token res = Some tok ->
             Oauth.r_Err res = None
             /\ exists st', Oauth.state l' = Some st' /\ Oauth.Config l' <> None
                            /\ exchange code (Oauth.Verifier st') = (Some tok, None))
  /\ Oauth.handleCallback (Oauth.Stop l) query
     = [Oauth.HttpError "No login in progress" Oauth.StatusBadRequest]
  /\ Oauth.exchangeCode exchange (Oauth.Stop l) code
     = [Oauth.Send {| Oauth.r_Token := None;
                      Oauth.r_Err := Some "no login state available"%string |}].
Proof.
  assert (Hrun :
    (Oauth.state l = None
     /\ Oauth.handleCallback l query = [Oauth.HttpError "No login in progress" 400%Z])
    \/ (exists st msg e,
          Oauth.state l = Some st
          /\ (Oauth.Get query "state" <> Oauth.State st
              \/ Oauth.Get query "error" <> ""%string
              \/ Oauth.Get query "code" = ""%string)
          /\ Oauth.handleCallback l query
             = [Oauth.HttpError msg 400%Z;
                Oauth.Send {| Oauth.r_Token := None; Oauth.r_Err := Some e |}])
    \/ (exists st,
          Oauth.state l = Some st
          /\ Oauth.Get query "state" = Oauth.State st
          /\ Oauth.Get query "error" = ""%string
          /\ Oauth.Get query "code" <> ""%string
          /\ Oauth.handleCallback l query
             = [Oauth.SetHeader "Content-Type" "text/html"; Oauth.WriteHeader 200%Z;
                Oauth.Write Oauth.successPage;
                Oauth.GoExchangeCode (Oauth.Get query "code")])).
  { unfold Oauth.handleCallback. destruct (Oauth.state l) as [st |]; [| by left]. right.
    destruct (String.eqb_spec (Oauth.Get query "state") (Oauth.State st)) as [Hs | Hs]; simpl.
    2: { left. exists st. do 2 eexists. split; [done |]. split; [by left | reflexivity]. }
    destruct (String.eqb_spec (Oauth.Get query "error") "") as [He | He]; simpl.
    2: { left. exists st. do 2 eexists. split; [done |]. split; [by right; left | reflexivity]. }
    destruct (String.eqb_spec (Oauth.Get query "code") "") as [Hc | Hc]; simpl.
    { left. exists st. do 2 eexists. split; [done |]. split; [by right; right | reflexivity]. }
    right. by exists st. }
  unfold Oauth.starts_exchange, Oauth.delivers_token.
  split; [| split; [| split; [| split; [| split]]]].
  - destruct Hrun as [[Hst ->] | [(st & msg & e & Hst & Hbad & ->) | (st & Hst & Hs & He & Hc & ->)]].
    + split.
      * intros (c & [Hin | []]). discriminate Hin.
      * intros (st & Hst' & _). congruence.
    + split.
      * intros (c & [Hin | [Hin | []]]); discriminate Hin.
      * intros (st' & Hst' & Hs & He & Hc).
        assert (st' = st) by congruence. subst st'.
        destruct Hbad as [Hbad | [Hbad | Hbad]]; contradiction.
    + split; [intros _; by exists st |].
      intros _. eexists. do 3 right. left. reflexivity.
  - intros c Hin.
    destruct Hrun as [[Hst Hr] | [(st & msg & e & Hst & Hbad & Hr) | (st & Hst & Hs & He & Hc & Hr)]];
      rewrite Hr in Hin; simpl in Hin;
      repeat (destruct Hin as [Hin | Hin]; [try discriminate Hin |]); try contradiction.
    by injection Hin as <-.
  - intros (tok & err & Hin).
    destruct Hrun as [[Hst Hr] | [(st & msg & e & Hst & Hbad & Hr) | (st & Hst & Hs & He & Hc & Hr)]];
      rewrite Hr in Hin; simpl in Hin;
      repeat (destruct Hin as [Hin | Hin]; [discriminate Hin |]); contradiction.
  - unfold Oauth.exchangeCode.
    destruct (Oauth.state l') as [st' |].
    2: { eexists. split; [reflexivity |]. intros tok Htok. discriminate Htok. }
    destruct (Oauth.Config l') as [cfg |].
    2: { eexists. split; [reflexivity |]. intros tok Htok. discriminate Htok. }
    destruct (exchange code (Oauth.Verifier st')) as [token [err |]] eqn:Hex.
    + eexists. split; [reflexivity |]. intros tok Htok. discriminate Htok.
    + eexists. split; [reflexivity |]. intros tok Htok. simpl in Htok. subst token.
      split; [done |]. exists st'. by repeat split.
  - reflexivity.
  - reflexivity.
Qed.
